(** * Friend-request lifecycle of the social networking app

    A shallow embedding of [social_networking_app/views.py]: the views
    [FriendRequestViewSet.create], [FriendRequestStatus.accept],
    [FriendRequestStatus.reject], [FriendRequestStatus.get_friend_request]
    and [FriendRequestStatus.list_pending_requests], over an explicit
    database state (the three tables the views query through the ORM).

    The views are modelled as they run once the framework has authenticated
    the caller: [request.user] is a row of [CustomUser], and one call is
    served at a time.  The models, the serializers and the throttle class
    named in the settings are not among the sources; what the views need of
    them is a parameter or is modelled from the specification, and says so. *)

From Stdlib Require Import List ZArith String Bool Arith Lia.
Import ListNotations.

Local Open Scope string_scope.
Local Open Scope list_scope.

(** ** Tables *)

(** A row of [CustomUser].  The views read the primary key (model
    equality), and the [email] column. *)
Record CustomUser : Type := mkCustomUser {
  user_pk : nat;
  email : string;
  username : string
}.

(** [to_user == request.user]: Django compares model instances by primary
    key. *)
Definition user_eqb (u v : CustomUser) : bool :=
  Nat.eqb (user_pk u) (user_pk v).

(** A row of [FriendRequest].  Timestamps are microseconds on the clock
    that [datetime.now()] reads. *)
Record FriendRequest : Type := mkFriendRequest {
  pk : nat;
  from_user : CustomUser;
  to_user : CustomUser;
  accepted : bool;
  created_at : Z
}.

(** A row of [Friend]: a directed edge owned by [user]. The views filter
    on [user] ([FriendViewSet.get_queryset]). *)
Record Friend : Type := mkFriend {
  user : CustomUser;
  friend : CustomUser
}.

(** The database: one list of rows per table, in insertion order, and the
    auto-increment counter of the [FriendRequest] table. *)
Record DB : Type := mkDB {
  CustomUser_objects : list CustomUser;
  FriendRequest_objects : list FriendRequest;
  Friend_objects : list Friend;
  FriendRequest_next_pk : nat
}.

(** ** The ORM primitives the views use *)

Inductive QueryResult (A : Type) : Type :=
| Found (a : A)
| DoesNotExist
| MultipleObjectsReturned.

Arguments Found {A} a.
Arguments DoesNotExist {A}.
Arguments MultipleObjectsReturned {A}.

(** [Model.objects.get(...)]: the single matching row, or one of the two
    exceptions. *)
Definition objects_get {A : Type} (p : A -> bool) (rows : list A)
  : QueryResult A :=
  match filter p rows with
  | [] => DoesNotExist
  | [a] => Found a
  | _ :: _ :: _ => MultipleObjectsReturned
  end.

(** [Model.objects.filter(...).count()] and [.exists()]. *)
Definition objects_count {A : Type} (p : A -> bool) (rows : list A) : nat :=
  List.length (filter p rows).

Definition objects_exists {A : Type} (p : A -> bool) (rows : list A) : bool :=
  existsb p rows.

(** [FriendRequest.objects.create(from_user=..., to_user=...)]: a new row
    with the next primary key; [accepted] takes its default and
    [created_at] the time of the insertion. *)
Definition FriendRequest_create (db : DB) (now : Z) (f t : CustomUser) : DB :=
  {| CustomUser_objects := CustomUser_objects db;
     FriendRequest_objects :=
       FriendRequest_objects db ++
       [ {| pk := FriendRequest_next_pk db;
            from_user := f;
            to_user := t;
            accepted := false;
            created_at := now |} ];
     Friend_objects := Friend_objects db;
     FriendRequest_next_pk := S (FriendRequest_next_pk db) |}.

(** [friend_request.delete()]: removes the row with the instance's primary
    key. *)
Definition FriendRequest_delete (db : DB) (r : FriendRequest) : DB :=
  {| CustomUser_objects := CustomUser_objects db;
     FriendRequest_objects :=
       filter (fun x => negb (Nat.eqb (pk x) (pk r))) (FriendRequest_objects db);
     Friend_objects := Friend_objects db;
     FriendRequest_next_pk := FriendRequest_next_pk db |}.

(** Modelled from the spec: [FriendRequest.accept] is a method of
    [models.py], which is not among the sources.  The spec has it flip
    [accepted] and materialize the friendship as directed [Friend] edges so
    that both users' friend lists include each other. *)
Definition FriendRequest_accept (db : DB) (r : FriendRequest) : DB :=
  {| CustomUser_objects := CustomUser_objects db;
     FriendRequest_objects :=
       map (fun x =>
              if Nat.eqb (pk x) (pk r)
              then {| pk := pk x; from_user := from_user x;
                      to_user := to_user x; accepted := true;
                      created_at := created_at x |}
              else x)
           (FriendRequest_objects db);
     Friend_objects :=
       Friend_objects db ++
       [ {| user := from_user r; friend := to_user r |};
         {| user := to_user r; friend := from_user r |} ];
     FriendRequest_next_pk := FriendRequest_next_pk db |}.

(** Modelled from the spec: [FriendRequest.reject] is a method of
    [models.py], which is not among the sources.  The spec has it delete the
    request without flipping it and without creating any friendship edge. *)
Definition FriendRequest_reject (db : DB) (r : FriendRequest) : DB :=
  FriendRequest_delete db r.

(** The friend list of a user, as [FriendViewSet.get_queryset] reads it:
    [Friend.objects.filter(user=user)]. *)
Definition friend_list (db : DB) (u : CustomUser) : list Friend :=
  filter (fun f => user_eqb (user f) u) (Friend_objects db).

(** ** Responses and exceptions *)

Definition HTTP_200_OK : nat := 200.
Definition HTTP_201_CREATED : nat := 201.
Definition HTTP_400_BAD_REQUEST : nat := 400.
Definition HTTP_403_FORBIDDEN : nat := 403.
Definition HTTP_404_NOT_FOUND : nat := 404.
Definition HTTP_429_TOO_MANY_REQUESTS : nat := 429.
Definition HTTP_500_INTERNAL_SERVER_ERROR : nat := 500.

(** The errors of a serializer: field name, messages. *)
Definition ErrorDict : Type := list (string * list string).

(** One entry of the pending list: a dict with the single key
    [from_user_email]. *)
Record PendingEntry : Type := mkPendingEntry {
  from_user_email : string
}.

(** The payloads the views put in a [Response]. *)
Inductive Body : Type :=
| ErrorBody (msg : string)            (* {"error": msg} *)
| MessageBody (msg : string)          (* {"message": msg} *)
| DetailBody (msg : string)           (* {"detail": msg} *)
| SerializerErrors (errors : ErrorDict)
| PendingBody (entries : list PendingEntry).

Record Response : Type := mkResponse {
  body : Body;
  status : nat
}.

Inductive Exception : Type :=
| PermissionDenied (detail : string)
| OtherException.

(** What a view method does: it returns a response or lets an exception
    escape. *)
Inductive ViewResult : Type :=
| Return (r : Response)
| Raise (e : Exception).

(** The framework around a view ([APIView.handle_exception]): a
    [PermissionDenied] that escapes becomes a 403 response, anything else a
    server error. *)
Definition handle_exception (v : ViewResult) : Response :=
  match v with
  | Return r => r
  | Raise (PermissionDenied d) =>
      {| body := DetailBody d; status := HTTP_403_FORBIDDEN |}
  | Raise OtherException =>
      {| body := ErrorBody "Server Error (500)";
         status := HTTP_500_INTERNAL_SERVER_ERROR |}
  end.

(** ** The clock *)

(** [timedelta(minutes=m)], in microseconds. *)
Definition timedelta_minutes (m : Z) : Z := (m * 60 * 1000000)%Z.

(** ** Request payloads and the serializer *)

(** [request.data]: the fields of the posted object. *)
Definition RequestData : Type := list (string * string).

(** The outcome of [serializer.is_valid()]: the validated [to_user] field,
    or [serializer.errors]. *)
Inductive Validation : Type :=
| Valid (to_user_field : string)
| Invalid (errors : ErrorDict).

Section Views.

(** [FriendRequestSerializer] is declared in [serializers.py], which is not
    among the sources: the views are parametric in it. *)
Variable FriendRequestSerializer : RequestData -> Validation.

(** *** [FriendRequestViewSet.create] *)

(** The count of line 40: requests of the caller created at or after the
    threshold. *)
Definition recent_requests_count (db : DB) (now : Z) (request_user : CustomUser)
  : nat :=
  let time_threshold := (now - timedelta_minutes 1)%Z in
  objects_count
    (fun r => user_eqb (from_user r) request_user
              && (time_threshold <=? created_at r)%Z)
    (FriendRequest_objects db).

(** The body of the [try] block of [create]. *)
Definition create_try (db : DB) (now : Z) (request_user : CustomUser)
  (data : RequestData) : DB * ViewResult :=
  if (3 <=? recent_requests_count db now request_user)%nat then
    (db, Return {| body := ErrorBody
                     "You cannot send more than 3 friend requests within a minute.";
                   status := HTTP_429_TOO_MANY_REQUESTS |})
  else
    match FriendRequestSerializer data with
    | Valid to_email =>
        match objects_get (fun u => String.eqb (email u) to_email)
                          (CustomUser_objects db) with
        | DoesNotExist =>
            (db, Return {| body := ErrorBody
                             ("User with email " ++ to_email ++ " does not exist.")%string;
                           status := HTTP_404_NOT_FOUND |})
        | MultipleObjectsReturned => (db, Raise OtherException)
        | Found to_user' =>
            if user_eqb to_user' request_user then
              (db, Return {| body := ErrorBody
                               "You cannot send a friend request to yourself.";
                             status := HTTP_400_BAD_REQUEST |})
            else if objects_exists
                      (fun r => user_eqb (from_user r) to_user'
                                && user_eqb (to_user r) request_user)
                      (FriendRequest_objects db) then
              (db, Return {| body := ErrorBody
                               "You cannot send a friend request to someone who has already sent you a request.";
                             status := HTTP_400_BAD_REQUEST |})
            else if objects_exists
                      (fun r => user_eqb (from_user r) request_user
                                && user_eqb (to_user r) to_user')
                      (FriendRequest_objects db) then
              (db, Return {| body := ErrorBody
                               "You have already sent a friend request to this user.";
                             status := HTTP_400_BAD_REQUEST |})
            else
              (FriendRequest_create db now request_user to_user',
               Return {| body := MessageBody "Friend request sent successfully.";
                         status := HTTP_201_CREATED |})
        end
    | Invalid errors =>
        (db, Return {| body := SerializerErrors errors;
                       status := HTTP_400_BAD_REQUEST |})
    end.

(** [create]: the [try] block under its [except Exception] handler. *)
Definition create (db : DB) (now : Z) (request_user : CustomUser)
  (data : RequestData) : DB * Response :=
  match create_try db now request_user data with
  | (db', Return r) => (db', r)
  | (db', Raise _) =>
      (db', {| body := ErrorBody "An unexpected error occurred.";
               status := HTTP_500_INTERNAL_SERVER_ERROR |})
  end.

End Views.

(** *** [FriendRequestStatus] *)

(** [get_friend_request]: the lookup by primary key; [DoesNotExist] is
    caught inside and [None] returned. *)
Definition get_friend_request (db : DB) (pk' : nat)
  : Exception + option FriendRequest :=
  match objects_get (fun r => Nat.eqb (pk r) pk') (FriendRequest_objects db) with
  | Found r => inr (Some r)
  | DoesNotExist => inr None
  | MultipleObjectsReturned => inl OtherException
  end.

(** [accept].  [get_friend_request] never raises [DoesNotExist], so the
    handler of line 125 is never entered; on [None] the attribute access
    of line 134 raises [AttributeError], which the handler of line 152
    turns into a 500 response. *)
Definition accept (db : DB) (request_user : CustomUser) (pk' : nat)
  : DB * ViewResult :=
  match get_friend_request db pk' with
  | inl e => (db, Raise e)
  | inr None =>
      (db, Return {| body := ErrorBody "Failed to process friend request acceptance";
                     status := HTTP_500_INTERNAL_SERVER_ERROR |})
  | inr (Some friend_request) =>
      if negb (user_eqb (to_user friend_request) request_user) then
        (db, Raise (PermissionDenied
                      "You are not authorized to perform this action."))
      else if accepted friend_request then
        (db, Return {| body := ErrorBody
                         "This friend request has already been accepted.";
                       status := HTTP_400_BAD_REQUEST |})
      else
        let db1 := FriendRequest_accept db friend_request in
        let db2 := FriendRequest_delete db1 friend_request in
        (db2, Return {| body := DetailBody "Friend request Accepted successfully.";
                        status := HTTP_200_OK |})
  end.

(** [reject], with the same shape. *)
Definition reject (db : DB) (request_user : CustomUser) (pk' : nat)
  : DB * ViewResult :=
  match get_friend_request db pk' with
  | inl e => (db, Raise e)
  | inr None =>
      (db, Return {| body := ErrorBody "Failed to process friend request rejection";
                     status := HTTP_500_INTERNAL_SERVER_ERROR |})
  | inr (Some friend_request) =>
      if negb (user_eqb (to_user friend_request) request_user) then
        (db, Raise (PermissionDenied
                      "You are not authorized to perform this action."))
      else if accepted friend_request then
        (db, Return {| body := ErrorBody
                         "This friend request has already been accepted.";
                       status := HTTP_400_BAD_REQUEST |})
      else
        (FriendRequest_reject db friend_request,
         Return {| body := DetailBody "Friend request rejected successfully.";
                   status := HTTP_200_OK |})
  end.

(** The views as a client sees them. *)
Definition accept_response (db : DB) (request_user : CustomUser) (pk' : nat)
  : DB * Response :=
  let '(db', v) := accept db request_user pk' in (db', handle_exception v).

Definition reject_response (db : DB) (request_user : CustomUser) (pk' : nat)
  : DB * Response :=
  let '(db', v) := reject db request_user pk' in (db', handle_exception v).

(** [list_pending_requests]: the loop appends one entry per row of the
    filtered queryset. *)
Definition list_pending_requests (db : DB) (request_user : CustomUser)
  : Response :=
  let friend_requests :=
    filter (fun r => user_eqb (to_user r) request_user
                     && Bool.eqb (accepted r) false)
           (FriendRequest_objects db) in
  let friend_requests_with_emails :=
    fold_left
      (fun acc request =>
         acc ++ [ {| from_user_email := email (from_user request) |} ])
      friend_requests [] in
  {| body := PendingBody friend_requests_with_emails; status := HTTP_200_OK |}.

(** The entries a response carries (none unless it is a pending list). *)
Definition pending_entries (r : Response) : list PendingEntry :=
  match body r with
  | PendingBody entries => entries
  | _ => []
  end.

(** ** Sequences of [create] calls *)

Record CreateCall : Type := mkCreateCall {
  call_now : Z;
  call_user : CustomUser;
  call_data : RequestData
}.

(** The calls are served one after the other, each on the database the
    previous one left. *)
Fixpoint run_creates (serializer : RequestData -> Validation) (db : DB)
  (calls : list CreateCall) : DB * list Response :=
  match calls with
  | [] => (db, [])
  | c :: calls' =>
      let '(db1, r) :=
        create serializer db (call_now c) (call_user c) (call_data c) in
      let '(db2, rs) := run_creates serializer db1 calls' in
      (db2, r :: rs)
  end.

(** A call targets [u] when its payload validates to an email that the user
    table resolves to [u]. *)
Definition targets (serializer : RequestData -> Validation) (db : DB)
  (u : CustomUser) (c : CreateCall) : bool :=
  match serializer (call_data c) with
  | Valid to_email =>
      match objects_get (fun x => String.eqb (email x) to_email)
                        (CustomUser_objects db) with
      | Found t => user_eqb t u
      | _ => false
      end
  | Invalid _ => false
  end.

(** The number of calls of a run that targeted [u] and were answered 201. *)
Fixpoint successes_targeting (serializer : RequestData -> Validation) (db : DB)
  (u : CustomUser) (calls : list CreateCall) (rs : list Response) : nat :=
  match calls, rs with
  | c :: calls', r :: rs' =>
      (if targets serializer db u c && Nat.eqb (status r) HTTP_201_CREATED
       then 1 else 0)
      + successes_targeting serializer db u calls' rs'
  | _, _ => 0
  end.

(** ** The outcomes the specification names *)

Definition RateLimited : Response :=
  {| body := ErrorBody
               "You cannot send more than 3 friend requests within a minute.";
     status := 429 |}.

Definition RecipientNotFound (to_email : string) : Response :=
  {| body := ErrorBody
               ("User with email " ++ to_email ++ " does not exist.")%string;
     status := 404 |}.

Definition SelfRequest : Response :=
  {| body := ErrorBody "You cannot send a friend request to yourself.";
     status := 400 |}.

Definition ReciprocalPending : Response :=
  {| body := ErrorBody
               "You cannot send a friend request to someone who has already sent you a request.";
     status := 400 |}.

Definition DuplicatePending : Response :=
  {| body := ErrorBody "You have already sent a friend request to this user.";
     status := 400 |}.

Definition Created : Response :=
  {| body := MessageBody "Friend request sent successfully."; status := 201 |}.

Definition ValidationFailed (errors : ErrorDict) : Response :=
  {| body := SerializerErrors errors; status := 400 |}.

Definition Unauthorized : Response :=
  {| body := DetailBody "You are not authorized to perform this action.";
     status := 403 |}.

Definition NotFound : Response :=
  {| body := ErrorBody "Friend request not found."; status := 404 |}.

(** ** Predicates on the store *)

(** The two existence queries of [create]. *)
Definition request_exists (db : DB) (f t : CustomUser) : bool :=
  objects_exists
    (fun r => user_eqb (from_user r) f && user_eqb (to_user r) t)
    (FriendRequest_objects db).

(** A request between [a] and [b], in either direction. *)
Definition between (a b : CustomUser) (r : FriendRequest) : bool :=
  (user_eqb (from_user r) a && user_eqb (to_user r) b)
  || (user_eqb (from_user r) b && user_eqb (to_user r) a).

Definition requests_between (db : DB) (a b : CustomUser) : nat :=
  objects_count (between a b) (FriendRequest_objects db).

(** No request with primary key [pk'] is stored. *)
Definition request_absent (db : DB) (pk' : nat) : Prop :=
  forall r, In r (FriendRequest_objects db) -> pk r <> pk'.

Definition no_self_request (db : DB) : Prop :=
  forall r, In r (FriendRequest_objects db) ->
            user_eqb (from_user r) (to_user r) = false.

Definition at_most_one_between (db : DB) : Prop :=
  forall a b, requests_between db a b <= 1.

Definition store_invariants (db : DB) : Prop :=
  no_self_request db /\ at_most_one_between db.

(** The projection of a request in the pending list. *)
Definition pending_entry (r : FriendRequest) : PendingEntry :=
  {| from_user_email := email (from_user r) |}.

(** The pending requests addressed to [u]. *)
Definition is_pending_for (u : CustomUser) (r : FriendRequest) : bool :=
  user_eqb (to_user r) u && negb (accepted r).

(** Apart from the rate limit, nothing stands in the way of a request from
    [sender] with payload [data]: the payload validates to the email of the
    user [u], who is not the sender, and no request is stored between the
    two. *)
Definition fresh_recipient (serializer : RequestData -> Validation) (db : DB)
  (sender : CustomUser) (data : RequestData) (u : CustomUser) : Prop :=
  (exists e,
     serializer data = Valid e
     /\ objects_get (fun x => String.eqb (email x) e) (CustomUser_objects db)
        = Found u)
  /\ user_eqb u sender = false
  /\ request_exists db u sender = false
  /\ request_exists db sender u = false.

(** The row [create] inserts. *)
Definition new_request (db : DB) (now : Z) (f t : CustomUser) : FriendRequest :=
  {| pk := FriendRequest_next_pk db; from_user := f; to_user := t;
     accepted := false; created_at := now |}.

(** The statement "once [a]'s request with payload [d] was answered 201, the
    same call made again at [t2] is answered DuplicatePending", for one
    database, caller, payload and pair of instants. *)
Definition duplicate_after_create (serializer : RequestData -> Validation)
  (db : DB) (t1 t2 : Z) (a : CustomUser) (d : RequestData) : Prop :=
  status (snd (create serializer db t1 a d)) = 201 ->
  snd (create serializer (fst (create serializer db t1 a d)) t2 a d)
  = DuplicatePending.

(** ** Sample data for concrete runs *)

Definition alice : CustomUser :=
  {| user_pk := 1; email := "alice@example.com"; username := "alice" |}.
Definition bob : CustomUser :=
  {| user_pk := 2; email := "bob@example.com"; username := "bob" |}.
Definition carol : CustomUser :=
  {| user_pk := 3; email := "carol@example.com"; username := "carol" |}.
Definition dave : CustomUser :=
  {| user_pk := 4; email := "dave@example.com"; username := "dave" |}.
Definition erin : CustomUser :=
  {| user_pk := 5; email := "erin@example.com"; username := "erin" |}.

Definition sample_users : list CustomUser := [alice; bob; carol; dave; erin].

Fixpoint field (name : string) (data : RequestData) : option string :=
  match data with
  | [] => None
  | (k, v) :: data' => if String.eqb k name then Some v else field name data'
  end.

(** A serializer with one required, non-blank field [to_user]. *)
Definition sample_serializer (data : RequestData) : Validation :=
  match field "to_user" data with
  | None => Invalid [("to_user", ["This field is required."])]
  | Some v =>
      if String.eqb v "" then Invalid [("to_user", ["This field may not be blank."])]
      else Valid v
  end.

(** The payload naming [u] as recipient. *)
Definition payload_to (u : CustomUser) : RequestData := [("to_user", email u)].

(** One second, in microseconds. *)
Definition seconds (n : Z) : Z := (n * 1000000)%Z.

Definition empty_db : DB :=
  {| CustomUser_objects := sample_users;
     FriendRequest_objects := [];
     Friend_objects := [];
     FriendRequest_next_pk := 1 |}.

(** Alice has sent two requests, to Carol and to Dave, at seconds 10 and
    20. *)
Definition busy_db : DB :=
  {| CustomUser_objects := sample_users;
     FriendRequest_objects :=
       [ {| pk := 1; from_user := alice; to_user := carol;
            accepted := false; created_at := seconds 10 |};
         {| pk := 2; from_user := alice; to_user := dave;
            accepted := false; created_at := seconds 20 |} ];
     Friend_objects := [];
     FriendRequest_next_pk := 3 |}.

(** One pending request, from Alice to Bob. *)
Definition pending_db : DB :=
  {| CustomUser_objects := sample_users;
     FriendRequest_objects :=
       [ {| pk := 7; from_user := alice; to_user := bob;
            accepted := false; created_at := seconds 10 |} ];
     Friend_objects := [];
     FriendRequest_next_pk := 8 |}.

(** Alice has sent three requests, to Carol, Dave and Bob, at seconds 10,
    20 and 30. *)
Definition limited_db : DB :=
  {| CustomUser_objects := sample_users;
     FriendRequest_objects :=
       [ {| pk := 1; from_user := alice; to_user := carol;
            accepted := false; created_at := seconds 10 |};
         {| pk := 2; from_user := alice; to_user := dave;
            accepted := false; created_at := seconds 20 |};
         {| pk := 3; from_user := alice; to_user := bob;
            accepted := false; created_at := seconds 30 |} ];
     Friend_objects := [];
     FriendRequest_next_pk := 4 |}.

(** A run on the empty store: Alice, Carol and Dave write to Bob, Alice
    repeats her request, Erin writes to Alice, and Bob writes to himself. *)
Definition sample_calls : list CreateCall :=
  [ mkCreateCall (seconds 1) alice (payload_to bob);
    mkCreateCall (seconds 2) carol (payload_to bob);
    mkCreateCall (seconds 3) dave (payload_to bob);
    mkCreateCall (seconds 4) alice (payload_to bob);
    mkCreateCall (seconds 5) erin (payload_to alice);
    mkCreateCall (seconds 6) bob (payload_to bob) ].

(** A store that holds a request in each direction between Alice and
    Bob. *)
Definition reciprocal_db : DB :=
  {| CustomUser_objects := sample_users;
     FriendRequest_objects :=
       [ {| pk := 1; from_user := alice; to_user := bob;
            accepted := false; created_at := seconds 10 |};
         {| pk := 2; from_user := bob; to_user := alice;
            accepted := false; created_at := seconds 20 |} ];
     Friend_objects := [];
     FriendRequest_next_pk := 3 |}.

(** ** Further predicates and sample stores *)

(** The answer of [accept] and [reject] on a request whose [accepted] flag
    is already set. *)
Definition AlreadyAccepted : Response :=
  {| body := ErrorBody "This friend request has already been accepted.";
     status := 400 |}.

(** The discipline an auto-increment primary key gives the request table:
    no two rows share a key and every key is below the counter. *)
Definition pk_well_formed (db : DB) : Prop :=
  NoDup (map pk (FriendRequest_objects db))
  /\ forall r, In r (FriendRequest_objects db) -> pk r < FriendRequest_next_pk db.

(** No two users share an email. *)
Definition unique_emails (db : DB) : Prop :=
  NoDup (map email (CustomUser_objects db)).

(** The database with another [Friend] table. *)
Definition with_friends (db : DB) (friends : list Friend) : DB :=
  {| CustomUser_objects := CustomUser_objects db;
     FriendRequest_objects := FriendRequest_objects db;
     Friend_objects := friends;
     FriendRequest_next_pk := FriendRequest_next_pk db |}.

(** Whether a request is counted for sender [u] by the rate limit at
    [now]. *)
Definition counted (now : Z) (u : CustomUser) (r : FriendRequest) : bool :=
  user_eqb (from_user r) u && (now - timedelta_minutes 1 <=? created_at r)%Z.

(** A store whose only request, from Alice to Bob, has its flag set. *)
Definition accepted_db : DB :=
  {| CustomUser_objects := sample_users;
     FriendRequest_objects :=
       [ {| pk := 9; from_user := alice; to_user := bob;
            accepted := true; created_at := seconds 10 |} ];
     Friend_objects := [];
     FriendRequest_next_pk := 10 |}.

(** A user table in which Bob's email is held by a second account. *)
Definition shared_email_db : DB :=
  {| CustomUser_objects :=
       sample_users
       ++ [ {| user_pk := 6; email := "bob@example.com"; username := "bobby" |} ];
     FriendRequest_objects := [];
     Friend_objects := [];
     FriendRequest_next_pk := 1 |}.

(** ** User search and pagination *)

(** [request.query_params]: the key/value pairs of the query string, in
    the order given.  [QueryDict.get] and [QueryDict.__getitem__] return the
    last value given for a key. *)
Definition QueryParams : Type := list (string * string).

Definition query_get (name : string) (params : QueryParams) : option string :=
  field name (rev params).

(** [icontains] on SQLite: [LIKE] with the keyword between wildcards, its
    own wildcards escaped; [LIKE] folds the case of the ASCII letters
    only. *)
Definition ascii_lower (c : Ascii.ascii) : Ascii.ascii :=
  let n := Ascii.nat_of_ascii c in
  if ((65 <=? n) && (n <=? 90))%nat then Ascii.ascii_of_nat (n + 32) else c.

Fixpoint lower (s : string) : string :=
  match s with
  | EmptyString => EmptyString
  | String c s' => String (ascii_lower c) (lower s')
  end.

Fixpoint contains (keyword s : string) : bool :=
  String.prefix keyword s
  || match s with
     | EmptyString => false
     | String _ s' => contains keyword s'
     end.

Definition icontains (column keyword : string) : bool :=
  contains (lower keyword) (lower column).

(** [order_by('id')]. *)
Fixpoint insert_by_id (u : CustomUser) (l : list CustomUser)
  : list CustomUser :=
  match l with
  | [] => [u]
  | v :: l' =>
      if (user_pk u <=? user_pk v)%nat then u :: l else v :: insert_by_id u l'
  end.

Definition order_by_id (l : list CustomUser) : list CustomUser :=
  fold_right insert_by_id [] l.

(** The class attributes of [CustomPagination]. *)
Definition page_size : Z := 10.
Definition max_page_size : Z := 1000.

(** [django.core.paginator.Paginator]: the number of pages ([orphans] is 0
    and an empty first page is allowed) and the slice of a page. *)
Definition num_pages (count per_page : nat) : nat :=
  let hits := Nat.max 1 count in
  if (hits mod per_page =? 0)%nat then hits / per_page
  else S (hits / per_page).

Definition page_slice {A : Type} (object_list : list A) (per_page number : nat)
  : list A :=
  let count := List.length object_list in
  let bottom := (number - 1) * per_page in
  let top := bottom + per_page in
  let top := if (count <=? top)%nat then count else top in
  firstn (top - bottom) (skipn bottom object_list).

(** A page of the paginator. *)
Record Page (A : Type) : Type := mkPage {
  page_objects : list A;
  number : nat;
  paginator_num_pages : nat;
  paginator_count : nat
}.

Arguments mkPage {A} _ _ _ _.
Arguments page_objects {A} _.
Arguments number {A} _.
Arguments paginator_num_pages {A} _.
Arguments paginator_count {A} _.

(** What [paginate_queryset] does: it returns [None], returns the page, or
    raises [NotFound]. *)
Inductive Pagination (A : Type) : Type :=
| PaginationOff
| PageOf (p : Page A)
| RaisedNotFound.

Arguments PaginationOff {A}.
Arguments PageOf {A} p.
Arguments RaisedNotFound {A}.

(** The body of a paginated response; a link is represented by the number
    of the page it addresses. *)
Record PaginatedBody (A : Type) : Type := mkPaginatedBody {
  next : option nat;
  previous : option nat;
  count : nat;
  results : list A
}.

Arguments mkPaginatedBody {A} _ _ _ _.
Arguments next {A} _.
Arguments previous {A} _.
Arguments count {A} _.
Arguments results {A} _.

Inductive ListBody (A : Type) : Type :=
| PageBody (b : PaginatedBody A)
| ListError (msg : string).       (* {"error": msg} *)

Arguments PageBody {A} b.
Arguments ListError {A} msg.

Record ListResponse (A : Type) : Type := mkListResponse {
  list_body : ListBody A;
  list_status : nat
}.

Arguments mkListResponse {A} _ _.
Arguments list_body {A} _.
Arguments list_status {A} _.

(** [CustomPagination.get_paginated_response]. *)
Definition get_paginated_response {A B : Type} (page : Page A) (data : list B)
  : ListResponse B :=
  {| list_body :=
       PageBody
         {| next := if (number page <? paginator_num_pages page)%nat
                    then Some (S (number page)) else None;
            previous := if (1 <? number page)%nat
                        then Some (number page - 1) else None;
            count := paginator_count page;
            results := data |};
     list_status := HTTP_200_OK |}.

Section UserSearch.

(** Python's [int] on a string: [None] stands for [ValueError]. *)
Variable python_int : string -> option Z.

(** The row predicate of the filter set [UserFilter] for given query
    parameters (the filters django-filter derives from [Meta.fields]). *)
Variable UserFilter : QueryParams -> CustomUser -> bool.

(** [UserSignupSerializer] is declared in [serializers.py], which is not
    among the sources. *)
Variable SerializedUser : Type.
Variable UserSignupSerializer : CustomUser -> SerializedUser.

(** [rest_framework.pagination._positive_int]. *)
Definition positive_int (integer_string : string) (strict : bool) (cutoff : Z)
  : option Z :=
  match python_int integer_string with
  | None => None
  | Some ret =>
      if (ret <? 0)%Z || ((ret =? 0)%Z && strict) then None
      else if (cutoff =? 0)%Z then Some ret
      else Some (Z.min ret cutoff)
  end.

(** [PageNumberPagination.get_page_size], with [page_size_query_param]
    set. *)
Definition get_page_size (params : QueryParams) : Z :=
  match query_get "page_size" params with
  | Some s =>
      match positive_int s true max_page_size with
      | Some n => n
      | None => page_size
      end
  | None => page_size
  end.

(** [PageNumberPagination.get_page_number]: the raw parameter, 1 when it is
    missing or empty, the last page for ["last"]. *)
Definition get_page_number (params : QueryParams) (pages : nat) : string + Z :=
  match query_get "page" params with
  | None => inr 1%Z
  | Some s =>
      if String.eqb s "" then inr 1%Z
      else if String.eqb s "last" then inr (Z.of_nat pages)
      else inl s
  end.

(** [Paginator.validate_number]: [None] stands for [InvalidPage]. *)
Definition validate_number (page_number : string + Z) (pages : nat)
  : option nat :=
  match (match page_number with
         | inl s => python_int s
         | inr z => Some z
         end) with
  | None => None
  | Some z =>
      if (z <? 1)%Z then None
      else if (Z.of_nat pages <? z)%Z then None
      else Some (Z.to_nat z)
  end.

(** [PageNumberPagination.paginate_queryset]. *)
Definition paginate_queryset {A : Type} (queryset : list A)
  (params : QueryParams) : Pagination A :=
  let size := get_page_size params in
  if (size =? 0)%Z then PaginationOff
  else
    let per_page := Z.to_nat size in
    let pages := num_pages (List.length queryset) per_page in
    match validate_number (get_page_number params pages) pages with
    | None => RaisedNotFound
    | Some n =>
        PageOf {| page_objects := page_slice queryset per_page n;
                  number := n;
                  paginator_num_pages := pages;
                  paginator_count := List.length queryset |}
    end.

(** The queryset of [UserSearchViewSet.list] before pagination. *)
Definition filtered_queryset (db : DB) (params : QueryParams)
  : list CustomUser :=
  let queryset := order_by_id (CustomUser_objects db) in
  let filtered := filter (UserFilter params) queryset in
  match query_get "q" params with
  | Some search_keyword =>
      if String.eqb search_keyword "" then filtered
      else filter (fun u => icontains (username u) search_keyword
                            || icontains (email u) search_keyword)
                  filtered
  | None => filtered
  end.

(** [UserSearchViewSet.list]: whatever is raised inside, [NotFound]
    included, is answered 500 by the [except Exception] handler; so is the
    serializer's failure on the [None] of a pagination switched off. *)
Definition UserSearchViewSet_list (db : DB) (params : QueryParams)
  : ListResponse SerializedUser :=
  match paginate_queryset (filtered_queryset db params) params with
  | PageOf page =>
      get_paginated_response page (map UserSignupSerializer (page_objects page))
  | PaginationOff | RaisedNotFound =>
      {| list_body := ListError "An unexpected error occurred.";
         list_status := HTTP_500_INTERNAL_SERVER_ERROR |}
  end.

End UserSearch.

(** A reader of plain decimal numerals, with an optional minus sign. *)
Fixpoint digits_value (s : string) (acc : Z) : option Z :=
  match s with
  | EmptyString => Some acc
  | String c s' =>
      let n := Ascii.nat_of_ascii c in
      if ((48 <=? n) && (n <=? 57))%nat
      then digits_value s' (acc * 10 + Z.of_nat (n - 48))%Z
      else None
  end.

Definition sample_int (s : string) : option Z :=
  match s with
  | EmptyString => None
  | String c s' =>
      if (Ascii.nat_of_ascii c =? 45)%nat then
        match s' with
        | EmptyString => None
        | _ => option_map Z.opp (digits_value s' 0%Z)
        end
      else digits_value s 0%Z
  end.

(** Exact match on the [email] and [username] parameters that are given
    and not empty. *)
Definition sample_user_filter (params : QueryParams) (u : CustomUser) : bool :=
  (match query_get "email" params with
   | Some v => String.eqb v "" || String.eqb (email u) v
   | None => true
   end)
  && (match query_get "username" params with
      | Some v => String.eqb v "" || String.eqb (username u) v
      | None => true
      end).

(** The user table of the sample data, in another order, and twelve users
    more. *)
Definition numbered_user (n : nat) : CustomUser :=
  {| user_pk := n;
     email := "user@example.org";
     username := "Member" |}.

Definition search_db : DB :=
  {| CustomUser_objects :=
       [erin; carol; alice; dave; bob] ++ map numbered_user (seq 6 12);
     FriendRequest_objects := [];
     Friend_objects := [];
     FriendRequest_next_pk := 1 |}.

(** ** The writes of [accept], one by one *)

(** The stores the database goes through during a call of [accept], in the
    order of lines 147-148: after [friend_request.accept()], then after
    [friend_request.delete()].  The view opens no transaction, so each of
    the two is the stored state once its write is made; a call that takes
    another branch writes nothing. *)
Definition accept_writes (db : DB) (request_user : CustomUser) (pk' : nat)
  : list DB :=
  match get_friend_request db pk' with
  | inr (Some friend_request) =>
      if negb (user_eqb (to_user friend_request) request_user) then []
      else if accepted friend_request then []
      else
        let db1 := FriendRequest_accept db friend_request in
        let db2 := FriendRequest_delete db1 friend_request in
        [db1; db2]
  | _ => []
  end.

(** The friendship of a request is materialized: each of its two users has
    the other in the friend list. *)
Definition friendship_stored (db : DB) (r : FriendRequest) : Prop :=
  In {| user := from_user r; friend := to_user r |}
     (friend_list db (from_user r))
  /\ In {| user := to_user r; friend := from_user r |}
        (friend_list db (to_user r)).

(** A request with primary key [pk'] is stored. *)
Definition request_stored (db : DB) (pk' : nat) : Prop :=
  exists x, In x (FriendRequest_objects db) /\ pk x = pk'.

(** The statement "the materialization and the deletion both happen or
    neither does": no store that a call of [accept] on request [r] goes
    through holds the friendship with the request still stored, or lacks
    the request without holding the friendship. *)
Definition accept_all_or_nothing (db : DB) (requester : CustomUser)
  (pk' : nat) (r : FriendRequest) : Prop :=
  forall db', In db' (accept_writes db requester pk') ->
    ~ (friendship_stored db' r /\ request_stored db' pk')
    /\ ~ (request_absent db' pk' /\ ~ friendship_stored db' r).

(** ** Keys and bodies the views can be handed *)

(** The largest integer a SQLite column holds.  A lookup by a larger key
    makes the ORM raise [OverflowError], which [get_friend_request] does
    not catch; [get_friend_request] above is the lookup for the keys up to
    this bound. *)
Definition sqlite_max_integer : Z := 9223372036854775807%Z.

(** The body of a request as [request.data] finds it on its first use,
    line 52 of [create]: the parsed fields, or a body the parser refuses
    with [ParseError]. *)
Inductive RequestBody : Type :=
| ParsedBody (data : RequestData)
| MalformedBody.

(** [create] from the body: the rate limit of lines 39-50 is checked before
    the body is read; the [ParseError] of a malformed body is raised inside
    the [try] block and answered by the [except Exception] handler. *)
Definition create_from_body (serializer : RequestData -> Validation)
  (db : DB) (now : Z) (request_user : CustomUser) (request_body : RequestBody)
  : DB * Response :=
  match request_body with
  | ParsedBody data => create serializer db now request_user data
  | MalformedBody =>
      if (3 <=? recent_requests_count db now request_user)%nat then
        (db, {| body := ErrorBody
                          "You cannot send more than 3 friend requests within a minute.";
                status := HTTP_429_TOO_MANY_REQUESTS |})
      else
        (db, {| body := ErrorBody "An unexpected error occurred.";
                status := HTTP_500_INTERNAL_SERVER_ERROR |})
  end.

(** ** The paths through [create] *)

(** One constructor per [return] of [create], with the conditions under
    which the code reaches it. *)
Inductive create_path (serializer : RequestData -> Validation) (db : DB)
  (now : Z) (u : CustomUser) (data : RequestData) : DB * Response -> Prop :=
| path_rate_limited :
    3 <= recent_requests_count db now u ->
    create_path serializer db now u data (db, RateLimited)
| path_invalid errors :
    recent_requests_count db now u < 3 ->
    serializer data = Invalid errors ->
    create_path serializer db now u data (db, ValidationFailed errors)
| path_not_found e :
    recent_requests_count db now u < 3 ->
    serializer data = Valid e ->
    objects_get (fun x => String.eqb (email x) e) (CustomUser_objects db)
      = DoesNotExist ->
    create_path serializer db now u data (db, RecipientNotFound e)
| path_ambiguous e :
    recent_requests_count db now u < 3 ->
    serializer data = Valid e ->
    objects_get (fun x => String.eqb (email x) e) (CustomUser_objects db)
      = MultipleObjectsReturned ->
    create_path serializer db now u data
      (db, {| body := ErrorBody "An unexpected error occurred."; status := 500 |})
| path_self e t :
    recent_requests_count db now u < 3 ->
    serializer data = Valid e ->
    objects_get (fun x => String.eqb (email x) e) (CustomUser_objects db)
      = Found t ->
    user_eqb t u = true ->
    create_path serializer db now u data (db, SelfRequest)
| path_reciprocal e t :
    recent_requests_count db now u < 3 ->
    serializer data = Valid e ->
    objects_get (fun x => String.eqb (email x) e) (CustomUser_objects db)
      = Found t ->
    user_eqb t u = false ->
    request_exists db t u = true ->
    create_path serializer db now u data (db, ReciprocalPending)
| path_duplicate e t :
    recent_requests_count db now u < 3 ->
    serializer data = Valid e ->
    objects_get (fun x => String.eqb (email x) e) (CustomUser_objects db)
      = Found t ->
    user_eqb t u = false ->
    request_exists db t u = false ->
    request_exists db u t = true ->
    create_path serializer db now u data (db, DuplicatePending)
| path_created e t :
    recent_requests_count db now u < 3 ->
    serializer data = Valid e ->
    objects_get (fun x => String.eqb (email x) e) (CustomUser_objects db)
      = Found t ->
    user_eqb t u = false ->
    request_exists db t u = false ->
    request_exists db u t = false ->
    create_path serializer db now u data
      (FriendRequest_create db now u t, Created).

(** * Properties *)

(** ** Model equality *)

Lemma user_eqb_refl (u : CustomUser) : user_eqb u u = true.
Proof. apply Nat.eqb_refl. Qed.

Lemma user_eqb_sym (u v : CustomUser) : user_eqb u v = user_eqb v u.
Proof. apply Nat.eqb_sym. Qed.

Lemma user_eqb_pk (u v : CustomUser) :
  user_eqb u v = true <-> user_pk u = user_pk v.
Proof. apply Nat.eqb_eq. Qed.

(** Equal users answer every comparison alike. *)
Lemma user_eqb_congr_r (u v w : CustomUser) :
  user_eqb u v = true -> user_eqb w u = user_eqb w v.
Proof.
  unfold user_eqb. intros H. apply Nat.eqb_eq in H. now rewrite H.
Qed.

Lemma user_eqb_congr_l (u v w : CustomUser) :
  user_eqb u v = true -> user_eqb u w = user_eqb v w.
Proof.
  unfold user_eqb. intros H. apply Nat.eqb_eq in H. now rewrite H.
Qed.

(** ** Counting over the request table *)

Lemma objects_count_app {A : Type} (p : A -> bool) (l1 l2 : list A) :
  objects_count p (l1 ++ l2) = objects_count p l1 + objects_count p l2.
Proof.
  unfold objects_count. now rewrite filter_app, length_app.
Qed.

Lemma objects_count_none {A : Type} (p : A -> bool) (l : list A) :
  (forall x, In x l -> p x = false) -> objects_count p l = 0.
Proof.
  unfold objects_count. induction l as [|a l IH]; intros H; simpl; auto.
  rewrite (H a (or_introl eq_refl)). apply IH. intros x Hx. apply H. now right.
Qed.

Lemma objects_exists_false {A : Type} (p : A -> bool) (l : list A) :
  objects_exists p l = false -> forall x, In x l -> p x = false.
Proof.
  unfold objects_exists. intros H x Hx.
  destruct (p x) eqn:E; auto.
  assert (existsb p l = true) by (apply existsb_exists; eauto). congruence.
Qed.

(** ** [create] follows one of its paths *)

Section CreatePaths.

Variable serializer : RequestData -> Validation.

Lemma create_follows_path (db : DB) (now : Z) (u : CustomUser)
  (data : RequestData) :
  create_path serializer db now u data (create serializer db now u data).
Proof.
  unfold create, create_try.
  destruct (3 <=? recent_requests_count db now u)%nat eqn:Hrate.
  - apply Nat.leb_le in Hrate. now apply path_rate_limited.
  - apply Nat.leb_gt in Hrate.
    destruct (serializer data) as [e|errors] eqn:Hser.
    + destruct (objects_get _ _) as [t| |] eqn:Hget.
      * destruct (user_eqb t u) eqn:Hself.
        { eapply path_self; eauto. }
        destruct (objects_exists _ _) eqn:Hrec.
        { eapply path_reciprocal; eauto. }
        destruct (objects_exists (fun r => user_eqb (from_user r) u && _) _)
          eqn:Hdup.
        { eapply path_duplicate; eauto. }
        eapply path_created; eauto.
      * eapply path_not_found; eauto.
      * eapply path_ambiguous; eauto.
    + eapply path_invalid; eauto.
Qed.

End CreatePaths.

(** Case analysis on the path [create] took; the cases that contradict the
    context are closed. *)
Ltac same_validation :=
  repeat match goal with
  | H1 : ?x = Valid ?a, H2 : ?x = Valid ?b |- _ =>
      assert (b = a) by congruence; try subst b; clear H2
  | H1 : ?x = Found ?a, H2 : ?x = Found ?b |- _ =>
      assert (b = a) by congruence; try subst b; clear H2
  end.

Ltac create_paths serializer db now u data :=
  let P := fresh "P" in
  pose proof (create_follows_path serializer db now u data) as P;
  inversion P; subst; same_validation; try lia; try congruence.

(** ** The order of the checks of [create] *)

Section CreateOrder.

Variable serializer : RequestData -> Validation.

(** C1: [create] checks its preconditions in a fixed order, each one
    answering at once with its own outcome: the rate limit (429), then the
    recipient's email not resolving to a user (404), then the recipient
    being the sender (400), then a stored request from the recipient to the
    sender (400), then a stored request from the sender to the recipient
    (400).  A later failure is reported only when all earlier checks pass;
    when all five pass one request row is appended, with [accepted] false,
    and the answer is 201; and 201 is answered only then. *)
Theorem create_checks_in_order (db : DB) (now : Z) (sender : CustomUser)
  (data : RequestData) :
  (3 <= recent_requests_count db now sender ->
   create serializer db now sender data = (db, RateLimited))
  /\
  (forall e, serializer data = Valid e ->
     recent_requests_count db now sender < 3 ->
     (objects_get (fun x => String.eqb (email x) e) (CustomUser_objects db)
        = DoesNotExist ->
      create serializer db now sender data = (db, RecipientNotFound e))
     /\
     (forall t,
        objects_get (fun x => String.eqb (email x) e) (CustomUser_objects db)
          = Found t ->
        (user_eqb t sender = true ->
         create serializer db now sender data = (db, SelfRequest))
        /\
        (user_eqb t sender = false ->
         request_exists db t sender = true ->
         create serializer db now sender data = (db, ReciprocalPending))
        /\
        (user_eqb t sender = false ->
         request_exists db t sender = false ->
         request_exists db sender t = true ->
         create serializer db now sender data = (db, DuplicatePending))
        /\
        (user_eqb t sender = false ->
         request_exists db t sender = false ->
         request_exists db sender t = false ->
         snd (create serializer db now sender data) = Created
         /\ exists r,
              FriendRequest_objects (fst (create serializer db now sender data))
                = FriendRequest_objects db ++ [r]
              /\ from_user r = sender /\ to_user r = t
              /\ accepted r = false /\ created_at r = now)))
  /\
  (status (snd (create serializer db now sender data)) = 201 ->
   exists e t,
     serializer data = Valid e
     /\ recent_requests_count db now sender < 3
     /\ objects_get (fun x => String.eqb (email x) e) (CustomUser_objects db)
          = Found t
     /\ user_eqb t sender = false
     /\ request_exists db t sender = false
     /\ request_exists db sender t = false)
  /\
  (status RateLimited = 429 /\ status Created = 201
   /\ (forall e, status (RecipientNotFound e) = 404)
   /\ status SelfRequest = 400 /\ status ReciprocalPending = 400
   /\ status DuplicatePending = 400
   /\ SelfRequest <> ReciprocalPending /\ SelfRequest <> DuplicatePending
   /\ ReciprocalPending <> DuplicatePending).
Proof.
  split; [|split; [|split]].
  - intros Hrate. create_paths serializer db now sender data.
  - intros e Hser Hrate. split.
    + intros Hget. create_paths serializer db now sender data.
    + intros t Hget. split; [|split; [|split]].
      * intros Hself. create_paths serializer db now sender data.
      * intros Hself Hrec. create_paths serializer db now sender data.
      * intros Hself Hrec Hdup. create_paths serializer db now sender data.
      * intros Hself Hrec Hdup.
        create_paths serializer db now sender data.
        split; [reflexivity|]. simpl.
        eexists. split; [reflexivity|]. simpl. auto.
  - intros H201.
    create_paths serializer db now sender data;
      match goal with H : _ = create _ _ _ _ _ |- _ =>
        rewrite <- H in H201; simpl in H201; try discriminate end.
    eexists; eexists; repeat split; eauto.
  - repeat split; try discriminate.
Qed.

End CreateOrder.

(** The six outcomes of C1 on the sample data, one call per check. *)
Lemma create_checks_in_order_witness :
  (3 <= recent_requests_count limited_db (seconds 40) alice
   /\ create sample_serializer limited_db (seconds 40) alice (payload_to erin)
      = (limited_db, RateLimited))
  /\
  (sample_serializer [("to_user", "nobody@example.com")]
     = Valid "nobody@example.com"
   /\ recent_requests_count empty_db 0 alice < 3
   /\ objects_get (fun x => String.eqb (email x) "nobody@example.com")
        (CustomUser_objects empty_db) = DoesNotExist
   /\ create sample_serializer empty_db 0 alice
        [("to_user", "nobody@example.com")]
      = (empty_db, RecipientNotFound "nobody@example.com"))
  /\
  (user_eqb alice alice = true
   /\ create sample_serializer empty_db 0 alice (payload_to alice)
      = (empty_db, SelfRequest))
  /\
  (user_eqb alice bob = false /\ request_exists pending_db alice bob = true
   /\ create sample_serializer pending_db (seconds 20) bob (payload_to alice)
      = (pending_db, ReciprocalPending))
  /\
  (user_eqb bob alice = false /\ request_exists pending_db bob alice = false
   /\ request_exists pending_db alice bob = true
   /\ create sample_serializer pending_db (seconds 20) alice (payload_to bob)
      = (pending_db, DuplicatePending))
  /\
  (request_exists empty_db bob alice = false
   /\ request_exists empty_db alice bob = false
   /\ snd (create sample_serializer empty_db 0 alice (payload_to bob)) = Created).
Proof.
  repeat match goal with |- _ /\ _ => split end;
    lazymatch goal with
    | |- create _ limited_db _ _ _ = _ =>
        apply (create_checks_in_order sample_serializer limited_db (seconds 40)
                 alice (payload_to erin));
        vm_compute; lia
    | |- create _ _ _ _ _ = (_, RecipientNotFound _) =>
        apply (create_checks_in_order sample_serializer empty_db 0 alice
                 [("to_user", "nobody@example.com")])
          with (e := "nobody@example.com");
        try reflexivity; vm_compute; lia
    | |- create _ _ _ _ _ = (_, SelfRequest) =>
        apply (create_checks_in_order sample_serializer empty_db 0 alice
                 (payload_to alice)) with (e := email alice) (t := alice);
        try reflexivity; vm_compute; lia
    | |- create _ _ _ _ _ = (_, ReciprocalPending) =>
        apply (create_checks_in_order sample_serializer pending_db (seconds 20)
                 bob (payload_to alice)) with (e := email alice) (t := alice);
        try reflexivity; vm_compute; lia
    | |- create _ _ _ _ _ = (_, DuplicatePending) =>
        apply (create_checks_in_order sample_serializer pending_db (seconds 20)
                 alice (payload_to bob)) with (e := email bob) (t := bob);
        try reflexivity; vm_compute; lia
    | |- snd (create _ _ _ _ _) = _ =>
        apply (create_checks_in_order sample_serializer empty_db 0 alice
                 (payload_to bob)) with (e := email bob) (t := bob);
        try reflexivity; vm_compute; lia
    | |- _ => vm_compute; first [reflexivity | lia]
    end.
Defined.

(** ** What an insertion changes *)

Lemma request_exists_create (db : DB) (now : Z) (f t a b : CustomUser) :
  request_exists (FriendRequest_create db now f t) a b
  = request_exists db a b || (user_eqb f a && user_eqb t b).
Proof.
  unfold request_exists, objects_exists. simpl.
  rewrite existsb_app. simpl. now rewrite orb_false_r.
Qed.

Lemma recent_requests_count_create (db : DB) (now now' : Z)
  (u t : CustomUser) :
  recent_requests_count (FriendRequest_create db now u t) now' u
  = recent_requests_count db now' u
    + (if (now' - timedelta_minutes 1 <=? now)%Z then 1 else 0).
Proof.
  unfold recent_requests_count. simpl. rewrite objects_count_app.
  f_equal. unfold objects_count. simpl. rewrite user_eqb_refl. simpl.
  now destruct (now' - timedelta_minutes 1 <=? now)%Z.
Qed.

(** Requests older than the window are not counted. *)
Lemma recent_requests_count_old (db : DB) (now : Z) (u : CustomUser) :
  (forall r, In r (FriendRequest_objects db) ->
             user_eqb (from_user r) u = true ->
             (created_at r < now - timedelta_minutes 1)%Z) ->
  recent_requests_count db now u = 0.
Proof.
  intros Hold. unfold recent_requests_count. apply objects_count_none.
  intros r Hr. destruct (user_eqb (from_user r) u) eqn:E; simpl; auto.
  apply Z.leb_gt. now apply Hold.
Qed.

(** ** The two ends of [create] *)

Section CreateEnds.

Variable serializer : RequestData -> Validation.

Lemma create_rate_limited (db : DB) (now : Z) (u : CustomUser)
  (data : RequestData) :
  3 <= recent_requests_count db now u ->
  create serializer db now u data = (db, RateLimited).
Proof. intros H. create_paths serializer db now u data. Qed.

Lemma create_created (db : DB) (now : Z) (u : CustomUser) (data : RequestData)
  (e : string) (t : CustomUser) :
  recent_requests_count db now u < 3 ->
  serializer data = Valid e ->
  objects_get (fun x => String.eqb (email x) e) (CustomUser_objects db)
    = Found t ->
  user_eqb t u = false ->
  request_exists db t u = false ->
  request_exists db u t = false ->
  create serializer db now u data = (FriendRequest_create db now u t, Created).
Proof. intros. create_paths serializer db now u data. Qed.

(** Whatever the path, the answer is 201 and a row was inserted, or the
    database is the one the call found. *)
Lemma create_unchanged_or_created (db : DB) (now : Z) (u : CustomUser)
  (data : RequestData) :
  (status (snd (create serializer db now u data)) <> 201
   /\ fst (create serializer db now u data) = db)
  \/ (exists e t,
        serializer data = Valid e
        /\ objects_get (fun x => String.eqb (email x) e) (CustomUser_objects db)
           = Found t
        /\ recent_requests_count db now u < 3
        /\ user_eqb t u = false
        /\ request_exists db t u = false
        /\ request_exists db u t = false
        /\ create serializer db now u data
           = (FriendRequest_create db now u t, Created)).
Proof.
  create_paths serializer db now u data;
    try (left; split; [simpl; discriminate | reflexivity]).
  right. exists e, t. repeat split; auto.
Qed.

End CreateEnds.

(** ** The rate limit *)

Section RateLimit.

Variable serializer : RequestData -> Validation.

(** A fresh recipient stays fresh when the sender's insertion is for
    someone else. *)
Lemma fresh_recipient_create (db : DB) (now : Z) (sender : CustomUser)
  (data : RequestData) (u v : CustomUser) :
  fresh_recipient serializer db sender data u ->
  user_eqb v sender = false ->
  user_eqb v u = false ->
  fresh_recipient serializer (FriendRequest_create db now sender v) sender data u.
Proof.
  intros (Hres & Hself & Hrec & Hdup) Hv Hvu.
  repeat split; auto.
  - rewrite request_exists_create, Hrec, Hv. simpl. apply andb_false_r.
  - rewrite request_exists_create, Hdup, Hvu. simpl. apply andb_false_r.
Qed.

Lemma create_fresh (db : DB) (now : Z) (sender : CustomUser)
  (data : RequestData) (u : CustomUser) :
  fresh_recipient serializer db sender data u ->
  recent_requests_count db now sender < 3 ->
  create serializer db now sender data
  = (FriendRequest_create db now sender u, Created).
Proof.
  intros ((e & Hser & Hget) & Hself & Hrec & Hdup) Hrate.
  eapply create_created; eauto.
Qed.

(** C2: [create] answers 429 exactly when at least 3 stored requests of the
    sender were created within the last minute, and then writes nothing.
    So when a sender with no request in the window makes four calls within
    60 seconds, the first three to fresh recipients, calls 1-3 are answered
    201 and call 4 is answered 429; and a call made once the first request
    is more than 60 seconds old is answered 201 again. *)
Theorem rate_limit_rolling_window (db : DB) (sender : CustomUser)
  (t1 t2 t3 t4 t5 : Z) (d1 d2 d3 d4 d5 : RequestData)
  (u1 u2 u3 u5 : CustomUser) :
  (forall r, In r (FriendRequest_objects db) ->
             user_eqb (from_user r) sender = true ->
             (created_at r < t1 - timedelta_minutes 1)%Z) ->
  (t1 <= t2)%Z -> (t2 <= t3)%Z -> (t3 <= t4)%Z ->
  (t4 - t1 <= timedelta_minutes 1)%Z ->
  (t1 + timedelta_minutes 1 < t5)%Z ->
  fresh_recipient serializer db sender d1 u1 ->
  fresh_recipient serializer db sender d2 u2 ->
  fresh_recipient serializer db sender d3 u3 ->
  fresh_recipient serializer db sender d5 u5 ->
  user_eqb u1 u2 = false -> user_eqb u1 u3 = false -> user_eqb u2 u3 = false ->
  user_eqb u1 u5 = false -> user_eqb u2 u5 = false -> user_eqb u3 u5 = false ->
  (forall db' now data,
     status (snd (create serializer db' now sender data)) = 429
     <-> 3 <= recent_requests_count db' now sender)
  /\
  (forall db' now data,
     status (snd (create serializer db' now sender data)) = 429 ->
     create serializer db' now sender data = (db', RateLimited))
  /\
  (exists db4,
     run_creates serializer db
       [ mkCreateCall t1 sender d1; mkCreateCall t2 sender d2;
         mkCreateCall t3 sender d3; mkCreateCall t4 sender d4 ]
     = (db4, [Created; Created; Created; RateLimited])
     /\ FriendRequest_objects db4
        = FriendRequest_objects db
          ++ [ new_request db t1 sender u1 ]
          ++ [ {| pk := S (FriendRequest_next_pk db); from_user := sender;
                  to_user := u2; accepted := false; created_at := t2 |} ]
          ++ [ {| pk := S (S (FriendRequest_next_pk db)); from_user := sender;
                  to_user := u3; accepted := false; created_at := t3 |} ]
     /\ snd (create serializer db4 t5 sender d5) = Created).
Proof.
  intros Hold H12 H23 H34 Hwin Hslid F1 F2 F3 F5 N12 N13 N23 N15 N25 N35.
  assert (S1 : user_eqb u1 sender = false) by apply F1.
  assert (S2 : user_eqb u2 sender = false) by apply F2.
  assert (S3 : user_eqb u3 sender = false) by apply F3.
  assert (Hzero : forall now, (t1 <= now)%Z ->
                              recent_requests_count db now sender = 0).
  { intros now Hnow. apply recent_requests_count_old.
    intros r Hr Hu. specialize (Hold r Hr Hu). lia. }
  split; [|split].
  - intros db' now data. split.
    + intros H429. create_paths serializer db' now sender data;
        match goal with H : _ = create _ _ _ _ _ |- _ =>
          rewrite <- H in H429; simpl in H429; discriminate end.
    + intros Hrate. now rewrite create_rate_limited.
  - intros db' now data H429.
    create_paths serializer db' now sender data;
      match goal with H : _ = create _ _ _ _ _ |- _ =>
        rewrite <- H in H429; simpl in H429; discriminate end.
  - set (db1 := FriendRequest_create db t1 sender u1).
    set (db2 := FriendRequest_create db1 t2 sender u2).
    set (db3 := FriendRequest_create db2 t3 sender u3).
    assert (C1 : create serializer db t1 sender d1 = (db1, Created)).
    { apply create_fresh; auto. rewrite Hzero; lia. }
    assert (C2 : create serializer db1 t2 sender d2 = (db2, Created)).
    { apply create_fresh.
      - apply fresh_recipient_create; auto.
      - unfold db1. rewrite recent_requests_count_create, Hzero by lia.
        destruct (_ <=? _)%Z; lia. }
    assert (C3 : create serializer db2 t3 sender d3 = (db3, Created)).
    { apply create_fresh.
      - repeat apply fresh_recipient_create; auto.
      - unfold db2, db1. rewrite !recent_requests_count_create, Hzero by lia.
        repeat destruct (_ <=? _)%Z; lia. }
    assert (C4 : create serializer db3 t4 sender d4 = (db3, RateLimited)).
    { apply create_rate_limited.
      unfold db3, db2, db1. rewrite !recent_requests_count_create.
      unfold timedelta_minutes in *.
      repeat match goal with
             | |- context [(?a <=? ?b)%Z] =>
                 destruct (Z.leb_spec a b); try lia
             end. }
    exists db3. split; [|split].
    + simpl. rewrite C1. simpl. rewrite C2. simpl. rewrite C3. simpl.
      now rewrite C4.
    + unfold db3, db2, db1, new_request. simpl.
      now rewrite <- !app_assoc.
    + rewrite (create_fresh db3 t5 sender d5 u5); [reflexivity| |].
      * rewrite user_eqb_sym in N15, N25, N35.
        repeat apply fresh_recipient_create; auto;
          now rewrite user_eqb_sym.
      * unfold db3, db2, db1. rewrite !recent_requests_count_create.
        rewrite Hzero by (unfold timedelta_minutes in *; lia).
        unfold timedelta_minutes in *.
        repeat match goal with
               | |- context [(?a <=? ?b)%Z] =>
                   destruct (Z.leb_spec a b); try lia
               end.
Qed.

End RateLimit.

(** C2 on the sample data: Alice writes to Bob, Carol and Dave at seconds
    0, 10 and 20, tries Erin at second 30, and again at second 61. *)
Lemma rate_limit_rolling_window_witness :
  (fresh_recipient sample_serializer empty_db alice (payload_to bob) bob
   /\ fresh_recipient sample_serializer empty_db alice (payload_to carol) carol
   /\ fresh_recipient sample_serializer empty_db alice (payload_to dave) dave
   /\ fresh_recipient sample_serializer empty_db alice (payload_to erin) erin)
  /\ (seconds 30 - 0 <= timedelta_minutes 1)%Z
  /\ (0 + timedelta_minutes 1 < seconds 61)%Z
  /\ exists db4,
       run_creates sample_serializer empty_db
         [ mkCreateCall 0 alice (payload_to bob);
           mkCreateCall (seconds 10) alice (payload_to carol);
           mkCreateCall (seconds 20) alice (payload_to dave);
           mkCreateCall (seconds 30) alice (payload_to erin) ]
       = (db4, [Created; Created; Created; RateLimited])
       /\ snd (create sample_serializer db4 (seconds 61) alice (payload_to erin))
          = Created.
Proof.
  assert (F : forall u, In u [bob; carol; dave; erin] ->
                        fresh_recipient sample_serializer empty_db alice
                          (payload_to u) u).
  { intros u Hu. simpl in Hu.
    destruct Hu as [<-|[<-|[<-|[<-|[]]]]];
      (split; [eexists; split; reflexivity | repeat split; reflexivity]). }
  split; [|split; [|split]].
  - repeat split; apply F; simpl; auto.
  - vm_compute. discriminate.
  - vm_compute. reflexivity.
  - destruct (rate_limit_rolling_window sample_serializer empty_db alice
                0%Z (seconds 10) (seconds 20) (seconds 30) (seconds 61)
                (payload_to bob) (payload_to carol) (payload_to dave)
                (payload_to erin) (payload_to erin) bob carol dave erin)
      as (_ & _ & db4 & Hrun & _ & Hlate);
      lazymatch goal with
      | |- fresh_recipient _ _ _ _ _ => apply F; simpl; now auto
      | |- user_eqb _ _ = _ => reflexivity
      | |- (_ <= _)%Z => vm_compute; discriminate
      | |- (_ < _)%Z => vm_compute; reflexivity
      | |- forall r, _ => intros r []
      | |- exists db, _ => exists db4; split; assumption
      end.
Defined.

(** ** Duplicate and reciprocal requests *)

Lemma between_sym (a b : CustomUser) (r : FriendRequest) :
  between a b r = between b a r.
Proof. unfold between. apply orb_comm. Qed.

(** When neither existence query of [create] finds a row, no request is
    stored between the two users. *)
Lemma requests_between_none (db : DB) (a b : CustomUser) :
  request_exists db a b = false ->
  request_exists db b a = false ->
  requests_between db a b = 0.
Proof.
  intros Hab Hba. unfold requests_between. apply objects_count_none.
  intros r Hr. unfold between.
  rewrite (objects_exists_false _ _ Hab r Hr).
  now rewrite (objects_exists_false _ _ Hba r Hr).
Qed.

Lemma requests_between_create (db : DB) (now : Z) (f t a b : CustomUser) :
  requests_between (FriendRequest_create db now f t) a b
  = requests_between db a b
    + (if (user_eqb f a && user_eqb t b) || (user_eqb f b && user_eqb t a)
       then 1 else 0).
Proof.
  unfold requests_between. simpl. rewrite objects_count_app. f_equal.
  unfold objects_count, between. simpl.
  now destruct ((user_eqb f a && user_eqb t b) || (user_eqb f b && user_eqb t a)).
Qed.

Section DuplicateReciprocal.

Variable serializer : RequestData -> Validation.

Lemma create_duplicate (db : DB) (now : Z) (u : CustomUser) (data : RequestData)
  (e : string) (t : CustomUser) :
  recent_requests_count db now u < 3 ->
  serializer data = Valid e ->
  objects_get (fun x => String.eqb (email x) e) (CustomUser_objects db)
    = Found t ->
  user_eqb t u = false ->
  request_exists db t u = false ->
  request_exists db u t = true ->
  create serializer db now u data = (db, DuplicatePending).
Proof. intros. create_paths serializer db now u data. Qed.

Lemma create_reciprocal (db : DB) (now : Z) (u : CustomUser) (data : RequestData)
  (e : string) (t : CustomUser) :
  recent_requests_count db now u < 3 ->
  serializer data = Valid e ->
  objects_get (fun x => String.eqb (email x) e) (CustomUser_objects db)
    = Found t ->
  user_eqb t u = false ->
  request_exists db t u = true ->
  create serializer db now u data = (db, ReciprocalPending).
Proof. intros. create_paths serializer db now u data. Qed.

(** C3, amended: after [a]'s request to [b] was answered 201, exactly one
    request is stored between the two; the same request made again is
    answered DuplicatePending, and [b]'s request to [a] is answered
    ReciprocalPending, each provided its caller is within the rate limit
    at that instant; a caller over the limit is answered RateLimited.  In
    all four cases the database is left as it was. *)
Theorem duplicate_and_reciprocal_after_create (db : DB) (t1 : Z)
  (a b a' : CustomUser) (dab dba : RequestData) (eb ea : string) :
  serializer dab = Valid eb ->
  objects_get (fun x => String.eqb (email x) eb) (CustomUser_objects db)
    = Found b ->
  serializer dba = Valid ea ->
  objects_get (fun x => String.eqb (email x) ea) (CustomUser_objects db)
    = Found a' ->
  user_eqb a' a = true ->
  status (snd (create serializer db t1 a dab)) = 201 ->
  let db1 := fst (create serializer db t1 a dab) in
  user_eqb a b = false
  /\ requests_between db1 a b = 1
  /\ forall t2,
       (recent_requests_count db1 t2 a < 3 ->
        create serializer db1 t2 a dab = (db1, DuplicatePending))
       /\ (3 <= recent_requests_count db1 t2 a ->
           create serializer db1 t2 a dab = (db1, RateLimited))
       /\ (recent_requests_count db1 t2 b < 3 ->
           create serializer db1 t2 b dba = (db1, ReciprocalPending))
       /\ (3 <= recent_requests_count db1 t2 b ->
           create serializer db1 t2 b dba = (db1, RateLimited)).
Proof.
  intros Hsab Hgb Hsba Hga Haa H201 db1.
  destruct (create_unchanged_or_created serializer db t1 a dab)
    as [[Hne _] | (e & t & Hs & Hg & Hrate & Hself & Hrec & Hdup & Hcreate)];
    [contradiction|].
  assert (e = eb) by congruence. subst e.
  assert (t = b) by congruence. subst t.
  unfold db1. rewrite Hcreate. simpl. clear db1.
  assert (Hab : user_eqb a b = false) by now rewrite user_eqb_sym.
  split; [assumption|]. split.
  - rewrite requests_between_create, requests_between_none by assumption.
    now rewrite !user_eqb_refl.
  - intros t2. repeat apply conj.
    + intros Hlim. eapply create_duplicate; eauto.
      * rewrite request_exists_create, Hrec, Hab. reflexivity.
      * rewrite request_exists_create, !user_eqb_refl. apply orb_true_r.
    + apply create_rate_limited.
    + intros Hlim. eapply create_reciprocal; eauto.
      * now rewrite (user_eqb_congr_l _ _ b Haa).
      * rewrite request_exists_create, user_eqb_refl.
        rewrite (user_eqb_sym a a'), Haa. apply orb_true_r.
    + apply create_rate_limited.
Qed.

End DuplicateReciprocal.

(** C3 as stated fails on a sender at the rate limit: Alice, with two
    requests in the last minute, writes to Bob (201) and repeats the call a
    second later; the answer is RateLimited, not DuplicatePending. *)
Lemma duplicate_after_create_counterexample :
  ~ duplicate_after_create sample_serializer busy_db (seconds 30) (seconds 31)
      alice (payload_to bob).
Proof.
  unfold duplicate_after_create. intros H.
  assert (E : snd (create sample_serializer
                     (fst (create sample_serializer busy_db (seconds 30) alice
                             (payload_to bob)))
                     (seconds 31) alice (payload_to bob)) = RateLimited)
    by (vm_compute; reflexivity).
  rewrite H in E by (vm_compute; reflexivity).
  discriminate E.
Qed.

(** The amended C3 on the sample data: Alice writes to Bob on the empty
    store; both follow-up calls are made ten seconds later. *)
Lemma duplicate_and_reciprocal_after_create_witness :
  status (snd (create sample_serializer empty_db 0 alice (payload_to bob))) = 201
  /\ requests_between
       (fst (create sample_serializer empty_db 0 alice (payload_to bob)))
       alice bob = 1
  /\ create sample_serializer
       (fst (create sample_serializer empty_db 0 alice (payload_to bob)))
       (seconds 10) alice (payload_to bob)
     = (fst (create sample_serializer empty_db 0 alice (payload_to bob)),
        DuplicatePending)
  /\ create sample_serializer
       (fst (create sample_serializer empty_db 0 alice (payload_to bob)))
       (seconds 10) bob (payload_to alice)
     = (fst (create sample_serializer empty_db 0 alice (payload_to bob)),
        ReciprocalPending).
Proof.
  destruct (duplicate_and_reciprocal_after_create sample_serializer empty_db 0
              alice bob alice (payload_to bob) (payload_to alice)
              (email bob) (email alice)
              eq_refl eq_refl eq_refl eq_refl eq_refl eq_refl)
    as (_ & Hone & Hnext).
  destruct (Hnext (seconds 10)) as (Hdup & _ & Hrec & _).
  split; [reflexivity|]. split; [exact Hone|]. split.
  - apply Hdup. vm_compute. lia.
  - apply Hrec. vm_compute. lia.
Defined.

(** ** Lookup and deletion by primary key *)

Lemma objects_get_found {A : Type} (p : A -> bool) (rows : list A) (a : A) :
  objects_get p rows = Found a -> In a rows /\ p a = true.
Proof.
  unfold objects_get. intros H.
  destruct (filter p rows) as [|x [|y l]] eqn:E; try discriminate.
  injection H as ->. apply filter_In. rewrite E. now left.
Qed.

Lemma objects_get_none {A : Type} (p : A -> bool) (rows : list A) :
  (forall x, In x rows -> p x = false) -> objects_get p rows = DoesNotExist.
Proof.
  intros H. unfold objects_get.
  destruct (filter p rows) as [|x l] eqn:E; [reflexivity|].
  assert (Hx : In x (filter p rows)) by (rewrite E; now left).
  apply filter_In in Hx. destruct Hx as [Hin Hp].
  rewrite (H x Hin) in Hp. discriminate.
Qed.

Lemma get_friend_request_found (db : DB) (pk' : nat) (r : FriendRequest) :
  get_friend_request db pk' = inr (Some r) ->
  In r (FriendRequest_objects db) /\ pk r = pk'.
Proof.
  unfold get_friend_request. intros H.
  destruct (objects_get _ _) as [x| |] eqn:E; try discriminate.
  injection H as ->. apply objects_get_found in E.
  destruct E as [Hin Hp]. split; [assumption|]. now apply Nat.eqb_eq.
Qed.

Lemma get_friend_request_absent (db : DB) (pk' : nat) :
  request_absent db pk' -> get_friend_request db pk' = inr None.
Proof.
  intros H. unfold get_friend_request.
  rewrite objects_get_none; [reflexivity|].
  intros x Hx. apply Nat.eqb_neq. now apply H.
Qed.

Lemma request_absent_delete (db : DB) (r : FriendRequest) :
  request_absent (FriendRequest_delete db r) (pk r).
Proof.
  intros x Hx. simpl in Hx. apply filter_In in Hx. destruct Hx as [_ Hx].
  apply Nat.eqb_neq. now destruct (pk x =? pk r)%nat.
Qed.

(** Flipping a row and then deleting it leaves the rows that deleting it
    alone leaves. *)
Lemma delete_after_accept_rows (db : DB) (r : FriendRequest) :
  FriendRequest_objects (FriendRequest_delete (FriendRequest_accept db r) r)
  = FriendRequest_objects (FriendRequest_delete db r).
Proof.
  simpl. induction (FriendRequest_objects db) as [|x l IH]; simpl; auto.
  destruct (pk x =? pk r)%nat eqn:E; simpl; rewrite E; simpl; now rewrite IH.
Qed.

(** ** [accept] and [reject] *)

(** The lookup that finds [r] matched the row [r] and no other. *)
Lemma get_friend_request_single (db : DB) (pk' : nat) (r : FriendRequest) :
  get_friend_request db pk' = inr (Some r) ->
  filter (fun x => Nat.eqb (pk x) pk') (FriendRequest_objects db) = [r].
Proof.
  unfold get_friend_request, objects_get. intros H.
  destruct (filter _ _) as [|x [|y l]]; try discriminate. congruence.
Qed.

(** After [friend_request.accept()] the request is still found under its
    key, with its flag set. *)
Lemma get_friend_request_after_accept (db : DB) (pk' : nat)
  (r : FriendRequest) :
  get_friend_request db pk' = inr (Some r) ->
  get_friend_request (FriendRequest_accept db r) pk'
  = inr (Some {| pk := pk r; from_user := from_user r; to_user := to_user r;
                 accepted := true; created_at := created_at r |}).
Proof.
  intros Hget.
  destruct (get_friend_request_found db pk' r Hget) as [_ Hpk].
  pose proof (get_friend_request_single db pk' r Hget) as Hone.
  unfold get_friend_request, objects_get. simpl.
  assert (E : forall rows,
             filter (fun x => Nat.eqb (pk x) pk')
               (map (fun x =>
                       if Nat.eqb (pk x) (pk r)
                       then {| pk := pk x; from_user := from_user x;
                               to_user := to_user x; accepted := true;
                               created_at := created_at x |}
                       else x) rows)
             = map (fun x =>
                      if Nat.eqb (pk x) (pk r)
                      then {| pk := pk x; from_user := from_user x;
                              to_user := to_user x; accepted := true;
                              created_at := created_at x |}
                      else x)
                   (filter (fun x => Nat.eqb (pk x) pk') rows)).
  { induction rows as [|x rows IH]; simpl; [reflexivity|].
    destruct (pk x =? pk r)%nat eqn:E1; destruct (pk x =? pk')%nat eqn:E2;
      simpl; rewrite ?E1, ?E2; simpl; now rewrite IH. }
  rewrite E, Hone. simpl. now rewrite Nat.eqb_refl.
Qed.

(** C4, amended: when the request exists, the caller is its recipient and
    it is not accepted yet, a call of [accept] that runs to its end answers
    200 and leaves a database in which the request is gone (the other
    requests are as before) and each of the two users has the other in the
    friend list.  The two effects are two writes, the friendship first: in
    every store the call goes through the friendship is held, so the
    request is never gone without it; but in the store between the two
    writes the request is still found under its key, with its flag set,
    next to the friendship, and there [accept] and [reject] both answer
    400. *)
Theorem accept_materializes_then_deletes (db : DB) (requester : CustomUser)
  (pk' : nat) (r : FriendRequest) :
  get_friend_request db pk' = inr (Some r) ->
  user_eqb (to_user r) requester = true ->
  accepted r = false ->
  let db' := fst (accept_response db requester pk') in
  let between_writes := FriendRequest_accept db r in
  status (snd (accept_response db requester pk')) = 200
  /\ request_absent db' pk'
  /\ get_friend_request db' pk' = inr None
  /\ FriendRequest_objects db'
     = filter (fun x => negb (Nat.eqb (pk x) pk')) (FriendRequest_objects db)
  /\ friendship_stored db' r
  /\ accept_writes db requester pk' = [between_writes; db']
  /\ (forall d, In d (accept_writes db requester pk') -> friendship_stored d r)
  /\ request_stored between_writes pk'
  /\ get_friend_request between_writes pk'
     = inr (Some {| pk := pk r; from_user := from_user r;
                    to_user := to_user r; accepted := true;
                    created_at := created_at r |})
  /\ accept_response between_writes requester pk'
     = (between_writes, AlreadyAccepted)
  /\ reject_response between_writes requester pk'
     = (between_writes, AlreadyAccepted).
Proof.
  intros Hget Hto Hacc db' between_writes.
  destruct (get_friend_request_found db pk' r Hget) as [Hin Hpk].
  assert (E : accept_response db requester pk'
              = (FriendRequest_delete (FriendRequest_accept db r) r,
                 {| body := DetailBody "Friend request Accepted successfully.";
                    status := 200 |})).
  { unfold accept_response, accept. now rewrite Hget, Hto, Hacc. }
  assert (W : accept_writes db requester pk'
              = [FriendRequest_accept db r;
                 FriendRequest_delete (FriendRequest_accept db r) r]).
  { unfold accept_writes. now rewrite Hget, Hto, Hacc. }
  unfold db', between_writes. rewrite E, W. simpl fst. simpl snd.
  clear db' between_writes.
  assert (Habs : request_absent
                   (FriendRequest_delete (FriendRequest_accept db r) r) pk').
  { rewrite <- Hpk. apply request_absent_delete. }
  assert (F1 : friendship_stored (FriendRequest_accept db r) r).
  { split; unfold friend_list; apply filter_In; simpl.
    - split; [apply in_or_app; right; now left | apply user_eqb_refl].
    - split; [apply in_or_app; right; right; now left | apply user_eqb_refl]. }
  assert (F2 : friendship_stored
                 (FriendRequest_delete (FriendRequest_accept db r) r) r)
    by exact F1.
  pose proof (get_friend_request_after_accept db pk' r Hget) as Hmid.
  split; [reflexivity|].
  split; [exact Habs|].
  split; [now apply get_friend_request_absent|].
  split; [rewrite delete_after_accept_rows; simpl; now rewrite Hpk|].
  split; [exact F2|].
  split; [reflexivity|].
  split; [intros d [<- | [<- | []]]; assumption|].
  split.
  { destruct (get_friend_request_found _ _ _ Hmid) as [Hstored Hk].
    eexists. split; [exact Hstored | exact Hk]. }
  split; [exact Hmid|].
  split.
  - unfold accept_response, accept. rewrite Hmid. simpl.
    now rewrite Hto.
  - unfold reject_response, reject. rewrite Hmid. simpl.
    now rewrite Hto.
Qed.

(** C4 as stated fails between the two writes: when Bob accepts Alice's
    request, the store after [friend_request.accept()] holds the two edges
    and still holds the request. *)
Lemma accept_all_or_nothing_counterexample :
  ~ accept_all_or_nothing pending_db bob 7
      {| pk := 7; from_user := alice; to_user := bob;
         accepted := false; created_at := seconds 10 |}.
Proof.
  intros H.
  destruct (H (FriendRequest_accept pending_db
                 {| pk := 7; from_user := alice; to_user := bob;
                    accepted := false; created_at := seconds 10 |}))
    as [Hboth _].
  - simpl. now left.
  - apply Hboth. split.
    + split; simpl; auto.
    + eexists. split; [simpl; left; reflexivity | reflexivity].
Qed.

(** The amended C4 on the sample data: Bob accepts Alice's request. *)
Lemma accept_materializes_then_deletes_witness :
  get_friend_request pending_db 7
  = inr (Some {| pk := 7; from_user := alice; to_user := bob;
                 accepted := false; created_at := seconds 10 |})
  /\ status (snd (accept_response pending_db bob 7)) = 200
  /\ FriendRequest_objects (fst (accept_response pending_db bob 7)) = []
  /\ In {| user := alice; friend := bob |}
        (friend_list (fst (accept_response pending_db bob 7)) alice)
  /\ In {| user := bob; friend := alice |}
        (friend_list (fst (accept_response pending_db bob 7)) bob)
  /\ List.length (accept_writes pending_db bob 7) = 2.
Proof.
  destruct (accept_materializes_then_deletes pending_db bob 7
              {| pk := 7; from_user := alice; to_user := bob;
                 accepted := false; created_at := seconds 10 |}
              eq_refl eq_refl eq_refl)
    as (Hstatus & _ & _ & Hrows & [Hab Hba] & Hwrites & _).
  split; [reflexivity|]. split; [exact Hstatus|].
  split; [exact Hrows|]. split; [exact Hab|]. split; [exact Hba|].
  now rewrite Hwrites.
Defined.

(** On an identifier that resolves to no request, [get_friend_request]
    returns [None] and both views answer 500. *)
Lemma missing_request_answers_500 (db : DB) (u : CustomUser) (pk' : nat) :
  request_absent db pk' ->
  accept_response db u pk'
  = (db, {| body := ErrorBody "Failed to process friend request acceptance";
            status := 500 |})
  /\ reject_response db u pk'
     = (db, {| body := ErrorBody "Failed to process friend request rejection";
               status := 500 |}).
Proof.
  intros H. unfold accept_response, reject_response, accept, reject.
  now rewrite (get_friend_request_absent db pk' H).
Qed.

(** C5 (the code departs from it): on the store without requests, [accept]
    and [reject] of request 1 answer 500, not NotFound; and so does a second
    [accept] of a request that the first one accepted and deleted. *)
Theorem accept_reject_missing_id_answer_500 :
  accept_response empty_db alice 1
  = (empty_db,
     {| body := ErrorBody "Failed to process friend request acceptance";
        status := 500 |})
  /\ reject_response empty_db alice 1
     = (empty_db,
        {| body := ErrorBody "Failed to process friend request rejection";
           status := 500 |})
  /\ status (snd (accept_response pending_db bob 7)) = 200
  /\ status (snd (accept_response (fst (accept_response pending_db bob 7)) bob 7))
     = 500
  /\ status NotFound = 404.
Proof.
  destruct (missing_request_answers_500 empty_db alice 1) as [Ha Hr].
  { intros r []. }
  repeat apply conj; try assumption; reflexivity.
Qed.

(** C6: on an existing request, a caller who is not its recipient gets
    403 from [accept] and from [reject], and the database, requests and
    friendships alike, is left as it was. *)
Theorem non_recipient_is_unauthorized (db : DB) (requester : CustomUser)
  (pk' : nat) (r : FriendRequest) :
  get_friend_request db pk' = inr (Some r) ->
  user_eqb (to_user r) requester = false ->
  accept_response db requester pk' = (db, Unauthorized)
  /\ reject_response db requester pk' = (db, Unauthorized)
  /\ status Unauthorized = 403.
Proof.
  intros Hget Hto.
  unfold accept_response, reject_response, accept, reject.
  rewrite Hget, Hto. simpl. auto.
Qed.

(** C6 on the sample data: the sender Alice and the bystander Carol try to
    settle Alice's request to Bob. *)
Lemma non_recipient_is_unauthorized_witness :
  (user_eqb bob alice = false
   /\ accept_response pending_db alice 7 = (pending_db, Unauthorized)
   /\ reject_response pending_db alice 7 = (pending_db, Unauthorized))
  /\
  (user_eqb bob carol = false
   /\ accept_response pending_db carol 7 = (pending_db, Unauthorized)
   /\ reject_response pending_db carol 7 = (pending_db, Unauthorized)).
Proof.
  pose proof (non_recipient_is_unauthorized pending_db alice 7
                {| pk := 7; from_user := alice; to_user := bob;
                   accepted := false; created_at := seconds 10 |}
                eq_refl eq_refl) as (Ha & Hr & _).
  pose proof (non_recipient_is_unauthorized pending_db carol 7
                {| pk := 7; from_user := alice; to_user := bob;
                   accepted := false; created_at := seconds 10 |}
                eq_refl eq_refl) as (Ha' & Hr' & _).
  split; (split; [reflexivity|]); split; assumption.
Defined.

(** C7: when the request exists, the caller is its recipient and it is not
    accepted yet, [reject] answers 200, the request is gone (the other
    requests are as before), and the [Friend] table, hence every friend
    list, is the one the call found. *)
Theorem reject_deletes_without_friendship (db : DB) (requester : CustomUser)
  (pk' : nat) (r : FriendRequest) :
  get_friend_request db pk' = inr (Some r) ->
  user_eqb (to_user r) requester = true ->
  accepted r = false ->
  let db' := fst (reject_response db requester pk') in
  status (snd (reject_response db requester pk')) = 200
  /\ request_absent db' pk'
  /\ get_friend_request db' pk' = inr None
  /\ FriendRequest_objects db'
     = filter (fun x => negb (Nat.eqb (pk x) pk')) (FriendRequest_objects db)
  /\ Friend_objects db' = Friend_objects db
  /\ forall u, friend_list db' u = friend_list db u.
Proof.
  intros Hget Hto Hacc db'.
  destruct (get_friend_request_found db pk' r Hget) as [Hin Hpk].
  assert (E : reject_response db requester pk'
              = (FriendRequest_reject db r,
                 {| body := DetailBody "Friend request rejected successfully.";
                    status := 200 |})).
  { unfold reject_response, reject. now rewrite Hget, Hto, Hacc. }
  unfold db'. rewrite E. simpl fst. simpl snd. clear db'.
  unfold FriendRequest_reject.
  assert (Habs : request_absent (FriendRequest_delete db r) pk').
  { rewrite <- Hpk. apply request_absent_delete. }
  repeat apply conj; auto.
  - now apply get_friend_request_absent.
  - simpl. now rewrite Hpk.
Qed.

(** C7 on the sample data: Bob rejects Alice's request. *)
Lemma reject_deletes_without_friendship_witness :
  get_friend_request pending_db 7
  = inr (Some {| pk := 7; from_user := alice; to_user := bob;
                 accepted := false; created_at := seconds 10 |})
  /\ status (snd (reject_response pending_db bob 7)) = 200
  /\ FriendRequest_objects (fst (reject_response pending_db bob 7)) = []
  /\ Friend_objects (fst (reject_response pending_db bob 7)) = [].
Proof.
  destruct (reject_deletes_without_friendship pending_db bob 7
              {| pk := 7; from_user := alice; to_user := bob;
                 accepted := false; created_at := seconds 10 |}
              eq_refl eq_refl eq_refl)
    as (Hstatus & _ & _ & Hrows & Hfriends & _).
  split; [reflexivity|]. split; [exact Hstatus|].
  split; [exact Hrows | exact Hfriends].
Defined.

(** ** The pending list *)

Lemma pending_loop (l : list FriendRequest) (acc : list PendingEntry) :
  fold_left
    (fun acc request =>
       acc ++ [ {| from_user_email := email (from_user request) |} ])
    l acc
  = acc ++ map pending_entry l.
Proof.
  revert acc. induction l as [|r l IH]; intros acc; simpl.
  - now rewrite app_nil_r.
  - rewrite IH, <- app_assoc. reflexivity.
Qed.

Lemma pending_filter (u : CustomUser) (rows : list FriendRequest) :
  filter (fun r => user_eqb (to_user r) u && Bool.eqb (accepted r) false) rows
  = filter (is_pending_for u) rows.
Proof.
  apply filter_ext. intros r. unfold is_pending_for.
  now destruct (accepted r).
Qed.

Lemma list_pending_requests_entries (db : DB) (u : CustomUser) :
  pending_entries (list_pending_requests db u)
  = map pending_entry (filter (is_pending_for u) (FriendRequest_objects db)).
Proof.
  unfold list_pending_requests, pending_entries. simpl.
  now rewrite pending_loop, pending_filter.
Qed.

Section PendingAfterCreates.

Variable serializer : RequestData -> Validation.

Lemma create_keeps_users (db : DB) (now : Z) (s : CustomUser)
  (d : RequestData) :
  CustomUser_objects (fst (create serializer db now s d))
  = CustomUser_objects db.
Proof.
  destruct (create_unchanged_or_created serializer db now s d)
    as [[_ ->] | (e & t & _ & _ & _ & _ & _ & _ & ->)]; reflexivity.
Qed.

Lemma successes_targeting_users (db1 db2 : DB) (u : CustomUser)
  (calls : list CreateCall) (rs : list Response) :
  CustomUser_objects db1 = CustomUser_objects db2 ->
  successes_targeting serializer db1 u calls rs
  = successes_targeting serializer db2 u calls rs.
Proof.
  intros H. revert rs. induction calls as [|c calls IH]; intros [|r rs];
    simpl; auto.
  unfold targets. now rewrite H, IH.
Qed.

(** One call adds one pending entry for [u] exactly when it targets [u] and
    is answered 201. *)
Lemma pending_after_create (db : DB) (u : CustomUser) (c : CreateCall) :
  let out := create serializer db (call_now c) (call_user c) (call_data c) in
  objects_count (is_pending_for u) (FriendRequest_objects (fst out))
  = objects_count (is_pending_for u) (FriendRequest_objects db)
    + (if targets serializer db u c && Nat.eqb (status (snd out)) HTTP_201_CREATED
       then 1 else 0).
Proof.
  intros out. unfold out.
  destruct (create_unchanged_or_created serializer db (call_now c)
              (call_user c) (call_data c))
    as [[Hne ->] | (e & t & Hs & Hg & _ & _ & _ & _ & ->)].
  - apply Nat.eqb_neq in Hne. unfold HTTP_201_CREATED. rewrite Hne.
    rewrite andb_false_r. lia.
  - simpl. rewrite objects_count_app. f_equal.
    unfold targets. rewrite Hs, Hg.
    unfold objects_count, is_pending_for. simpl.
    rewrite andb_true_r. now destruct (user_eqb t u).
Qed.

(** C8: the pending list of [u] carries one entry per stored request with
    [to_user = u] and [accepted = false], in storage order, each entry being
    the sender's email and nothing else; and a run of [create] calls
    lengthens it by the number of calls that targeted [u] and were answered
    201, so from a store with nothing pending for [u], N such calls give N
    entries. *)
Theorem list_pending_requests_exact (db : DB) (u : CustomUser)
  (calls : list CreateCall) (db' : DB) (rs : list Response) :
  run_creates serializer db calls = (db', rs) ->
  list_pending_requests db u
  = {| body := PendingBody
                 (map (fun r => {| from_user_email := email (from_user r) |})
                      (filter (fun r => user_eqb (to_user r) u
                                        && negb (accepted r))
                              (FriendRequest_objects db)));
       status := 200 |}
  /\ (forall e,
        In e (pending_entries (list_pending_requests db u))
        <-> exists r, In r (FriendRequest_objects db)
                      /\ user_eqb (to_user r) u = true
                      /\ accepted r = false
                      /\ e = {| from_user_email := email (from_user r) |})
  /\ List.length (pending_entries (list_pending_requests db' u))
     = List.length (pending_entries (list_pending_requests db u))
       + successes_targeting serializer db u calls rs
  /\ (pending_entries (list_pending_requests db u) = [] ->
      List.length (pending_entries (list_pending_requests db' u))
      = successes_targeting serializer db u calls rs).
Proof.
  intros Hrun.
  assert (Hlen : List.length (pending_entries (list_pending_requests db' u))
                 = List.length (pending_entries (list_pending_requests db u))
                   + successes_targeting serializer db u calls rs).
  { rewrite !list_pending_requests_entries, !length_map.
    change (objects_count (is_pending_for u) (FriendRequest_objects db')
            = objects_count (is_pending_for u) (FriendRequest_objects db)
              + successes_targeting serializer db u calls rs).
    revert db db' rs Hrun.
    induction calls as [|c calls' IH]; intros db db' rs Hrun; simpl in Hrun.
    - injection Hrun as <- <-. simpl. lia.
    - pose proof (pending_after_create db u c) as Hstep.
      pose proof (create_keeps_users db (call_now c) (call_user c)
                    (call_data c)) as Husers.
      destruct (create serializer db (call_now c) (call_user c) (call_data c))
        as [db1 r] eqn:Hc.
      destruct (run_creates serializer db1 calls') as [db2 rs'] eqn:Hrest.
      injection Hrun as <- <-. simpl in Hstep, Husers.
      rewrite (IH db1 db2 rs' Hrest), Hstep. simpl.
      rewrite (successes_targeting_users db1 db u calls' rs' Husers). lia. }
  split; [|split; [|split]].
  - unfold list_pending_requests. now rewrite pending_loop, pending_filter.
  - intros e. rewrite list_pending_requests_entries, in_map_iff. split.
    + intros (r & <- & Hr). apply filter_In in Hr. destruct Hr as [Hin Hp].
      unfold is_pending_for in Hp. apply andb_true_iff in Hp.
      destruct Hp as [Hto Hacc]. exists r. repeat split; auto.
      now destruct (accepted r).
    + intros (r & Hin & Hto & Hacc & ->). exists r. split; [reflexivity|].
      apply filter_In. split; [assumption|].
      unfold is_pending_for. now rewrite Hto, Hacc.
  - exact Hlen.
  - intros Hnil. rewrite Hlen, Hnil. reflexivity.
Qed.

End PendingAfterCreates.

(** C8 on the sample run: three of the six calls target Bob and are
    answered 201, and Bob's pending list has three entries. *)
Lemma list_pending_requests_exact_witness :
  run_creates sample_serializer empty_db sample_calls
  = (fst (run_creates sample_serializer empty_db sample_calls),
     [Created; Created; Created; DuplicatePending; Created; SelfRequest])
  /\ successes_targeting sample_serializer empty_db bob sample_calls
       [Created; Created; Created; DuplicatePending; Created; SelfRequest] = 3
  /\ List.length
       (pending_entries
          (list_pending_requests
             (fst (run_creates sample_serializer empty_db sample_calls)) bob))
     = 3
  /\ list_pending_requests empty_db bob
     = {| body := PendingBody []; status := 200 |}.
Proof.
  assert (Hrun : run_creates sample_serializer empty_db sample_calls
                 = (fst (run_creates sample_serializer empty_db sample_calls),
                    [Created; Created; Created; DuplicatePending; Created;
                     SelfRequest]))
    by (vm_compute; reflexivity).
  destruct (list_pending_requests_exact sample_serializer empty_db bob
              sample_calls _ _ Hrun) as (Hlist & _ & _ & Hcount).
  split; [exact Hrun|]. split; [vm_compute; reflexivity|].
  split; [|exact Hlist].
  rewrite Hcount; [vm_compute; reflexivity | reflexivity].
Defined.

(** ** The store invariants *)

Lemma between_congr (u t a b : CustomUser) (r : FriendRequest) :
  user_eqb u a = true -> user_eqb t b = true ->
  between a b r = between u t r.
Proof.
  intros Hu Ht. unfold between.
  now rewrite <- !(user_eqb_congr_r u a _ Hu), <- !(user_eqb_congr_r t b _ Ht).
Qed.

Lemma requests_between_congr (db : DB) (u t a b : CustomUser) :
  user_eqb u a = true -> user_eqb t b = true ->
  requests_between db a b = requests_between db u t.
Proof.
  intros Hu Ht. unfold requests_between, objects_count. f_equal.
  apply filter_ext. intros r. now apply between_congr.
Qed.

Lemma requests_between_sym (db : DB) (a b : CustomUser) :
  requests_between db a b = requests_between db b a.
Proof.
  unfold requests_between, objects_count. f_equal.
  apply filter_ext. intros r. apply between_sym.
Qed.

Lemma filter_filter_length {A : Type} (p q : A -> bool) (l : list A) :
  List.length (filter p (filter q l)) <= List.length (filter p l).
Proof.
  induction l as [|x l IH]; simpl; auto.
  destruct (q x), (p x) eqn:E; simpl; try rewrite E; simpl; lia.
Qed.

(** Deleting rows keeps the invariants. *)
Lemma store_invariants_filter (db db1 : DB) (q : FriendRequest -> bool) :
  FriendRequest_objects db1 = filter q (FriendRequest_objects db) ->
  store_invariants db -> store_invariants db1.
Proof.
  intros Hrows [Hself Hone]. split.
  - intros r Hr. rewrite Hrows in Hr. apply filter_In in Hr.
    apply Hself, Hr.
  - intros a b. unfold requests_between, objects_count. rewrite Hrows.
    eapply Nat.le_trans; [apply filter_filter_length | apply Hone].
Qed.

(** The insertion of [create], made after its three checks, keeps them. *)
Lemma store_invariants_create (db : DB) (now : Z) (u t : CustomUser) :
  user_eqb t u = false ->
  request_exists db t u = false ->
  request_exists db u t = false ->
  store_invariants db ->
  store_invariants (FriendRequest_create db now u t).
Proof.
  intros Hself Hrec Hdup [Hns Hone]. split.
  - intros r Hr. simpl in Hr. apply in_app_or in Hr.
    destruct Hr as [Hr | [<- | []]]; [now apply Hns|].
    simpl. now rewrite user_eqb_sym.
  - intros a b. rewrite requests_between_create.
    destruct (user_eqb u a && user_eqb t b) eqn:E1; simpl.
    + apply andb_true_iff in E1. destruct E1 as [Hu Ht].
      rewrite (requests_between_congr db u t a b Hu Ht).
      rewrite requests_between_none by assumption. lia.
    + destruct (user_eqb u b && user_eqb t a) eqn:E2.
      * apply andb_true_iff in E2. destruct E2 as [Hu Ht].
        rewrite requests_between_sym.
        rewrite (requests_between_congr db u t b a Hu Ht).
        rewrite requests_between_none by assumption. lia.
      * specialize (Hone a b). lia.
Qed.

(** The invariants do exclude something: a pair of reciprocal requests. *)
Lemma store_invariants_exclude_reciprocal : ~ store_invariants reciprocal_db.
Proof.
  intros [_ Hone]. specialize (Hone alice bob). vm_compute in Hone. lia.
Qed.

Section Invariants.

Variable serializer : RequestData -> Validation.

(** C9: from a store in which no request has its sender as recipient and
    at most one request is stored between any two users, in either
    direction, [create], [accept] and [reject] all lead to such a store. *)
Theorem operations_preserve_store_invariants (db : DB) :
  store_invariants db ->
  (forall now u data, store_invariants (fst (create serializer db now u data)))
  /\ (forall u pk', store_invariants (fst (accept_response db u pk')))
  /\ (forall u pk', store_invariants (fst (reject_response db u pk'))).
Proof.
  intros Hinv. repeat apply conj.
  - intros now u data.
    destruct (create_unchanged_or_created serializer db now u data)
      as [[_ ->] | (e & t & _ & _ & _ & Hself & Hrec & Hdup & ->)];
      [assumption|].
    now apply store_invariants_create.
  - intros u pk'. unfold accept_response, accept.
    destruct (get_friend_request db pk') as [e|[r|]]; try assumption.
    destruct (negb (user_eqb (to_user r) u)); [assumption|].
    destruct (accepted r); [assumption|]. simpl.
    eapply store_invariants_filter; [|exact Hinv].
    rewrite delete_after_accept_rows. reflexivity.
  - intros u pk'. unfold reject_response, reject.
    destruct (get_friend_request db pk') as [e|[r|]]; try assumption.
    destruct (negb (user_eqb (to_user r) u)); [assumption|].
    destruct (accepted r); [assumption|]. simpl.
    eapply store_invariants_filter; [|exact Hinv]. reflexivity.
Qed.

End Invariants.

(** The store with Alice's request to Bob satisfies the invariants. *)
Lemma store_invariants_pending_db : store_invariants pending_db.
Proof.
  split.
  - intros r [<- | []]. reflexivity.
  - intros a b. unfold requests_between, objects_count. simpl.
    destruct (between a b _); simpl; lia.
Qed.

(** C9 on the sample data: Carol writes to Alice, Bob accepts, Bob
    rejects. *)
Lemma operations_preserve_store_invariants_witness :
  store_invariants pending_db
  /\ store_invariants
       (fst (create sample_serializer pending_db (seconds 20) carol
               (payload_to alice)))
  /\ store_invariants (fst (accept_response pending_db bob 7))
  /\ store_invariants (fst (reject_response pending_db bob 7)).
Proof.
  destruct (operations_preserve_store_invariants sample_serializer pending_db
              store_invariants_pending_db) as (Hc & Ha & Hr).
  split; [exact store_invariants_pending_db|].
  split; [apply Hc|]. split; [apply Ha | apply Hr].
Defined.

(** ** [create] writes on its 201 path only *)

Section CreateFrame.

Variable serializer : RequestData -> Validation.

(** C10: a call of [create] that is not answered 201 leaves the database
    as it found it.  In particular a payload that the serializer rejects is
    never answered 201: past the rate limit it is answered 400 with the
    serializer's errors, and nothing is written. *)
Theorem create_writes_only_on_201 (db : DB) (now : Z) (u : CustomUser)
  (data : RequestData) :
  (status (snd (create serializer db now u data)) <> 201 ->
   fst (create serializer db now u data) = db)
  /\ Friend_objects (fst (create serializer db now u data)) = Friend_objects db
  /\ forall errors,
       serializer data = Invalid errors ->
       fst (create serializer db now u data) = db
       /\ status (snd (create serializer db now u data)) <> 201
       /\ (recent_requests_count db now u < 3 ->
           create serializer db now u data = (db, ValidationFailed errors))
       /\ status (ValidationFailed errors) = 400
       /\ body (ValidationFailed errors) = SerializerErrors errors.
Proof.
  repeat apply conj.
  - intros Hne.
    destruct (create_unchanged_or_created serializer db now u data)
      as [[_ ->] | (e & t & _ & _ & _ & _ & _ & _ & E)]; [reflexivity|].
    rewrite E in Hne. simpl in Hne. congruence.
  - destruct (create_unchanged_or_created serializer db now u data)
      as [[_ ->] | (e & t & _ & _ & _ & _ & _ & _ & ->)]; reflexivity.
  - intros errors Hinvalid.
    split; [|split; [|split; [|split]]]; try reflexivity.
    + create_paths serializer db now u data; reflexivity.
    + create_paths serializer db now u data; simpl; discriminate.
    + intros Hrate. create_paths serializer db now u data.
Qed.

End CreateFrame.

(** C10 on the sample data: a payload without the [to_user] field, and a
    request to oneself. *)
Lemma create_writes_only_on_201_witness :
  sample_serializer [] = Invalid [("to_user", ["This field is required."])]
  /\ create sample_serializer pending_db (seconds 20) carol []
     = (pending_db, ValidationFailed [("to_user", ["This field is required."])])
  /\ status (snd (create sample_serializer pending_db (seconds 20) carol
                    (payload_to carol))) <> 201
  /\ fst (create sample_serializer pending_db (seconds 20) carol
            (payload_to carol)) = pending_db.
Proof.
  destruct (create_writes_only_on_201 sample_serializer pending_db (seconds 20)
              carol []) as (_ & _ & Hinvalid).
  destruct (Hinvalid _ eq_refl) as (_ & _ & H400 & _).
  destruct (create_writes_only_on_201 sample_serializer pending_db (seconds 20)
              carol (payload_to carol)) as (Hframe & _).
  split; [reflexivity|]. split; [apply H400; vm_compute; lia|].
  split; [vm_compute; discriminate|].
  apply Hframe. vm_compute. discriminate.
Defined.

(** * Further properties of the views *)

(** ** The guard on accepted requests *)

(** X1: on an existing request whose flag is already set, the recipient's
    [accept] and [reject] both answer 400 and write nothing. *)
Theorem accepted_request_is_refused (db : DB) (requester : CustomUser)
  (pk' : nat) (r : FriendRequest) :
  get_friend_request db pk' = inr (Some r) ->
  user_eqb (to_user r) requester = true ->
  accepted r = true ->
  accept_response db requester pk' = (db, AlreadyAccepted)
  /\ reject_response db requester pk' = (db, AlreadyAccepted).
Proof.
  intros Hget Hto Hacc.
  unfold accept_response, reject_response, accept, reject.
  rewrite Hget, Hto, Hacc. simpl. auto.
Qed.

Lemma accepted_request_is_refused_witness :
  accepted {| pk := 9; from_user := alice; to_user := bob;
              accepted := true; created_at := seconds 10 |} = true
  /\ accept_response accepted_db bob 9 = (accepted_db, AlreadyAccepted)
  /\ reject_response accepted_db bob 9 = (accepted_db, AlreadyAccepted).
Proof.
  split; [reflexivity|].
  exact (accepted_request_is_refused accepted_db bob 9
           {| pk := 9; from_user := alice; to_user := bob;
              accepted := true; created_at := seconds 10 |}
           eq_refl eq_refl eq_refl).
Defined.

(** ** When [accept] and [reject] succeed *)

(** X2: [accept] answers 200 exactly when the identifier resolves to a
    request whose recipient is the caller and whose flag is not set, and so
    does [reject]; whatever the call, the answer is 200, 400, 403 or 500,
    never 404. *)
Theorem accept_reject_succeed_iff (db : DB) (requester : CustomUser)
  (pk' : nat) :
  (status (snd (accept_response db requester pk')) = 200
   <-> exists r, get_friend_request db pk' = inr (Some r)
                 /\ user_eqb (to_user r) requester = true
                 /\ accepted r = false)
  /\ (status (snd (reject_response db requester pk')) = 200
      <-> status (snd (accept_response db requester pk')) = 200)
  /\ In (status (snd (accept_response db requester pk'))) [200; 400; 403; 500]
  /\ In (status (snd (reject_response db requester pk'))) [200; 400; 403; 500]
  /\ status (snd (accept_response db requester pk')) <> 404
  /\ status (snd (reject_response db requester pk')) <> 404.
Proof.
  unfold accept_response, reject_response, accept, reject.
  destruct (get_friend_request db pk') as [e|[r|]] eqn:G;
    [destruct e | destruct (user_eqb (to_user r) requester) eqn:Hto;
                  destruct (accepted r) eqn:Hacc | ];
    simpl;
    cbv [HTTP_200_OK HTTP_400_BAD_REQUEST HTTP_403_FORBIDDEN
         HTTP_500_INTERNAL_SERVER_ERROR];
    repeat apply conj;
    lazymatch goal with
    | |- _ \/ _ => auto 10
    | |- _ <> _ => discriminate
    | |- ?a = 200 -> ?a = 200 => exact (fun H => H)
    | |- _ = 200 -> ex _ => first [discriminate | intros _; exists r; auto]
    | |- ex _ -> _ =>
        intros (r0 & Hr & H1 & H2);
        first [reflexivity | discriminate Hr | injection Hr as <-; congruence]
    end.
Qed.

(** ** Lookup by primary key *)

Lemma filter_unique_pk (rows : list FriendRequest) (r : FriendRequest) :
  NoDup (map pk rows) -> In r rows ->
  filter (fun x => Nat.eqb (pk x) (pk r)) rows = [r].
Proof.
  induction rows as [|x rows IH]; intros Hnd Hin; [contradiction|].
  simpl in Hnd. inversion Hnd as [|? ? Hnotin Hnd']; subst.
  simpl. destruct Hin as [-> | Hin].
  - rewrite Nat.eqb_refl. f_equal.
    destruct (filter _ rows) as [|y l] eqn:E; [reflexivity|].
    assert (Hy : In y (filter (fun x => Nat.eqb (pk x) (pk r)) rows))
      by (rewrite E; now left).
    apply filter_In in Hy. destruct Hy as [Hy Hpk].
    apply Nat.eqb_eq in Hpk. exfalso. apply Hnotin. rewrite <- Hpk.
    now apply in_map.
  - destruct (pk x =? pk r)%nat eqn:E.
    + apply Nat.eqb_eq in E. exfalso. apply Hnotin. rewrite E.
      now apply in_map.
    + now apply IH.
Qed.

Lemma get_friend_request_unique (db : DB) (r : FriendRequest) :
  NoDup (map pk (FriendRequest_objects db)) ->
  In r (FriendRequest_objects db) ->
  get_friend_request db (pk r) = inr (Some r).
Proof.
  intros Hnd Hr. unfold get_friend_request, objects_get.
  now rewrite (filter_unique_pk _ r Hnd Hr).
Qed.

(** X3: in a store whose requests have pairwise distinct primary keys, all
    within the range of a SQLite integer, every stored request is found by
    its key; and for every key within that range the lookup lets no
    exception escape, returns [None] exactly when no stored request has the
    key, and returns a request exactly when that request is stored under
    the key.  (For a key beyond the range the ORM raises [OverflowError],
    which the helper does not catch: such keys are outside the
    statement.) *)
Theorem get_friend_request_finds_stored (db : DB) :
  NoDup (map pk (FriendRequest_objects db)) ->
  (forall r, In r (FriendRequest_objects db) ->
             (Z.of_nat (pk r) <= sqlite_max_integer)%Z) ->
  (forall r, In r (FriendRequest_objects db) ->
             get_friend_request db (pk r) = inr (Some r))
  /\ (forall pk',
        (Z.of_nat pk' <= sqlite_max_integer)%Z ->
        (get_friend_request db pk' = inr None <-> request_absent db pk')
        /\ (forall e, get_friend_request db pk' <> inl e)
        /\ (forall r, get_friend_request db pk' = inr (Some r)
                      <-> In r (FriendRequest_objects db) /\ pk r = pk')).
Proof.
  intros Hnd Hrange. split.
  - intros r Hr. now apply get_friend_request_unique.
  - intros pk' Hkey. split; [|split].
    + split; [|apply get_friend_request_absent].
      intros Hnone r Hr Hpk.
      unfold get_friend_request, objects_get in Hnone.
      rewrite <- Hpk, (filter_unique_pk _ r Hnd Hr) in Hnone. discriminate.
    + intros e. unfold get_friend_request, objects_get.
      destruct (filter _ _) as [|x [|y l]] eqn:E; try discriminate.
      exfalso.
      assert (Hx : In x (filter (fun r => Nat.eqb (pk r) pk')
                           (FriendRequest_objects db)))
        by (rewrite E; now left).
      apply filter_In in Hx. destruct Hx as [Hx Hpk]. apply Nat.eqb_eq in Hpk.
      subst pk'. rewrite (filter_unique_pk _ x Hnd Hx) in E. discriminate.
    + intros r. split; [apply get_friend_request_found|].
      intros [Hr <-]. now apply get_friend_request_unique.
Qed.

Lemma get_friend_request_finds_stored_witness :
  NoDup (map pk (FriendRequest_objects limited_db))
  /\ (Z.of_nat 5 <= sqlite_max_integer)%Z
  /\ get_friend_request limited_db 2
     = inr (Some {| pk := 2; from_user := alice; to_user := dave;
                    accepted := false; created_at := seconds 20 |})
  /\ (get_friend_request limited_db 5 = inr None
      <-> request_absent limited_db 5).
Proof.
  assert (Hnd : NoDup (map pk (FriendRequest_objects limited_db))).
  { simpl. repeat constructor; simpl; intuition discriminate. }
  assert (Hrange : forall r, In r (FriendRequest_objects limited_db) ->
                             (Z.of_nat (pk r) <= sqlite_max_integer)%Z).
  { intros r Hr. simpl in Hr.
    destruct Hr as [<- | [<- | [<- | []]]]; vm_compute; discriminate. }
  assert (Hfive : (Z.of_nat 5 <= sqlite_max_integer)%Z)
    by (vm_compute; discriminate).
  destruct (get_friend_request_finds_stored limited_db Hnd Hrange)
    as (Hfind & Hkeys).
  destruct (Hkeys 5 Hfive) as (Hnone & _).
  split; [exact Hnd|]. split; [exact Hfive|]. split; [|exact Hnone].
  apply (Hfind {| pk := 2; from_user := alice; to_user := dave;
                  accepted := false; created_at := seconds 20 |}).
  simpl. auto.
Defined.

(** ** The auto-increment discipline *)

Lemma pk_well_formed_filter (db db1 : DB) (q : FriendRequest -> bool) :
  FriendRequest_objects db1 = filter q (FriendRequest_objects db) ->
  FriendRequest_next_pk db1 = FriendRequest_next_pk db ->
  pk_well_formed db -> pk_well_formed db1.
Proof.
  intros Hrows Hnext [Hnd Hlt]. split.
  - rewrite Hrows. clear Hrows Hlt.
    induction (FriendRequest_objects db) as [|x l IH]; simpl; [constructor|].
    simpl in Hnd. inversion Hnd as [|? ? Hnotin Hnd']; subst.
    destruct (q x); simpl; [|now apply IH].
    constructor; [|now apply IH].
    intros Hin. apply Hnotin. apply in_map_iff in Hin.
    destruct Hin as (y & Hy & Hin). apply filter_In in Hin.
    rewrite <- Hy. apply in_map. apply Hin.
  - intros r Hr. rewrite Hrows in Hr. apply filter_In in Hr.
    rewrite Hnext. apply Hlt, Hr.
Qed.

Lemma pk_well_formed_create (db : DB) (now : Z) (u t : CustomUser) :
  pk_well_formed db -> pk_well_formed (FriendRequest_create db now u t).
Proof.
  intros [Hnd Hlt]. split; simpl.
  - rewrite map_app. simpl.
    apply NoDup_app; [assumption | repeat constructor; intros [] | ].
    intros k Hk [<- | []]. apply in_map_iff in Hk.
    destruct Hk as (r & Hr & Hin). specialize (Hlt r Hin). lia.
  - intros r Hr. apply in_app_or in Hr. destruct Hr as [Hr | [<- | []]].
    + specialize (Hlt r Hr). lia.
    + simpl. lia.
Qed.

Section AutoIncrement.

Variable serializer : RequestData -> Validation.

(** X4: the three operations keep the request table keyed: from a store
    whose primary keys are pairwise distinct and below the counter,
    [create], [accept] and [reject] lead to such a store. *)
Theorem operations_keep_primary_keys (db : DB) :
  pk_well_formed db ->
  (forall now u data, pk_well_formed (fst (create serializer db now u data)))
  /\ (forall u pk', pk_well_formed (fst (accept_response db u pk')))
  /\ (forall u pk', pk_well_formed (fst (reject_response db u pk'))).
Proof.
  intros Hwf. repeat apply conj.
  - intros now u data.
    destruct (create_unchanged_or_created serializer db now u data)
      as [[_ ->] | (e & t & _ & _ & _ & _ & _ & _ & ->)]; [assumption|].
    now apply pk_well_formed_create.
  - intros u pk'. unfold accept_response, accept.
    destruct (get_friend_request db pk') as [e|[r|]]; try assumption.
    destruct (negb (user_eqb (to_user r) u)); [assumption|].
    destruct (accepted r); [assumption|]. simpl.
    eapply pk_well_formed_filter; [| |exact Hwf].
    + rewrite delete_after_accept_rows. reflexivity.
    + reflexivity.
  - intros u pk'. unfold reject_response, reject.
    destruct (get_friend_request db pk') as [e|[r|]]; try assumption.
    destruct (negb (user_eqb (to_user r) u)); [assumption|].
    destruct (accepted r); [assumption|]. simpl.
    eapply pk_well_formed_filter; [| |exact Hwf]; reflexivity.
Qed.

(** X5: in a keyed store, a request that [create] answers 201 can be looked
    up at once under the key the counter held: the lookup returns a request
    from the caller, not accepted, stamped with the time of the call; and
    every request that could be looked up before still can, unchanged. *)
Theorem created_request_is_found (db : DB) (now : Z) (u : CustomUser)
  (data : RequestData) :
  pk_well_formed db ->
  status (snd (create serializer db now u data)) = 201 ->
  let db' := fst (create serializer db now u data) in
  (exists t,
     targets serializer db t (mkCreateCall now u data) = true
     /\ get_friend_request db' (FriendRequest_next_pk db)
        = inr (Some {| pk := FriendRequest_next_pk db; from_user := u;
                       to_user := t; accepted := false; created_at := now |}))
  /\ FriendRequest_next_pk db' = S (FriendRequest_next_pk db)
  /\ forall pk' r, get_friend_request db pk' = inr (Some r) ->
                   get_friend_request db' pk' = inr (Some r).
Proof.
  intros Hwf H201 db'.
  destruct (create_unchanged_or_created serializer db now u data)
    as [[Hne _] | (e & t & Hs & Hg & _ & _ & _ & _ & E)]; [contradiction|].
  unfold db'. rewrite E. simpl fst. clear db'.
  pose proof (pk_well_formed_create db now u t Hwf) as [Hnd' _].
  repeat apply conj.
  - exists t. split.
    + unfold targets. simpl. rewrite Hs, Hg. apply user_eqb_refl.
    + apply (get_friend_request_unique _ (new_request db now u t) Hnd').
      simpl. apply in_or_app. right. now left.
  - reflexivity.
  - intros pk' r Hr. apply get_friend_request_found in Hr.
    destruct Hr as [Hin <-]. apply get_friend_request_unique; [exact Hnd'|].
    simpl. apply in_or_app. now left.
Qed.

End AutoIncrement.

Lemma pk_well_formed_pending_db : pk_well_formed pending_db.
Proof.
  split.
  - simpl. repeat constructor. intros [].
  - intros r [<- | []]. simpl. lia.
Qed.

Lemma operations_keep_primary_keys_witness :
  pk_well_formed pending_db
  /\ pk_well_formed
       (fst (create sample_serializer pending_db (seconds 20) carol
               (payload_to alice)))
  /\ pk_well_formed (fst (accept_response pending_db bob 7))
  /\ pk_well_formed (fst (reject_response pending_db bob 7)).
Proof.
  destruct (operations_keep_primary_keys sample_serializer pending_db
              pk_well_formed_pending_db) as (Hc & Ha & Hr).
  split; [exact pk_well_formed_pending_db|].
  split; [apply Hc|]. split; [apply Ha | apply Hr].
Defined.

Lemma created_request_is_found_witness :
  status (snd (create sample_serializer pending_db (seconds 20) carol
                 (payload_to alice))) = 201
  /\ (exists t,
        targets sample_serializer pending_db t
          (mkCreateCall (seconds 20) carol (payload_to alice)) = true
        /\ get_friend_request
             (fst (create sample_serializer pending_db (seconds 20) carol
                     (payload_to alice))) 8
           = inr (Some {| pk := 8; from_user := carol; to_user := t;
                          accepted := false; created_at := seconds 20 |})).
Proof.
  split; [reflexivity|].
  apply (created_request_is_found sample_serializer pending_db (seconds 20)
           carol (payload_to alice) pk_well_formed_pending_db eq_refl).
Defined.

(** ** What [create] does not look at *)

Lemma objects_count_le_mono {A : Type} (p q : A -> bool) (l : list A) :
  (forall x, In x l -> p x = true -> q x = true) ->
  objects_count p l <= objects_count q l.
Proof.
  unfold objects_count. induction l as [|x l IH]; intros H; simpl; auto.
  assert (IH' : List.length (filter p l) <= List.length (filter q l))
    by (apply IH; intros y Hy; apply H; now right).
  destruct (p x) eqn:E.
  - rewrite (H x (or_introl eq_refl) E). simpl. lia.
  - destruct (q x); simpl; lia.
Qed.

(** With pairwise distinct emails the lookup by email is never ambiguous. *)
Lemma objects_get_email_unique (users : list CustomUser) (e : string) :
  NoDup (map email users) ->
  objects_get (fun x => String.eqb (email x) e) users
  <> MultipleObjectsReturned.
Proof.
  intros Hnd. unfold objects_get.
  assert (H : List.length (filter (fun x => String.eqb (email x) e) users) <= 1).
  { induction users as [|x l IH]; simpl; [lia|].
    simpl in Hnd. inversion Hnd as [|? ? Hnotin Hnd']; subst.
    destruct (String.eqb (email x) e) eqn:E; [|now apply IH].
    apply String.eqb_eq in E. simpl.
    destruct (filter _ l) as [|y l'] eqn:F; [simpl; lia|].
    exfalso. apply Hnotin.
    assert (Hy : In y (filter (fun x => String.eqb (email x) e) l))
      by (rewrite F; now left).
    apply filter_In in Hy. destruct Hy as [Hy Hey].
    apply String.eqb_eq in Hey. rewrite E, <- Hey. now apply in_map. }
  destruct (filter _ users) as [|x [|y l]]; try discriminate.
  simpl in H. lia.
Qed.

Section CreateScope.

Variable serializer : RequestData -> Validation.

(** X6: [create] never consults the [Friend] table: on two stores that
    differ only in their friendships it gives the same answer and writes
    the same request, so two users who are friends already can still send
    each other a request. *)
Theorem create_ignores_friendships (db : DB) (friends : list Friend) (now : Z)
  (u : CustomUser) (data : RequestData) :
  create serializer (with_friends db friends) now u data
  = (with_friends (fst (create serializer db now u data)) friends,
     snd (create serializer db now u data)).
Proof.
  unfold create, create_try, recent_requests_count, with_friends.
  cbn [FriendRequest_objects CustomUser_objects].
  destruct (Nat.leb 3 _); [reflexivity|].
  destruct (serializer data) as [e|errors]; [|reflexivity].
  destruct (objects_get _ _) as [t| |]; try reflexivity.
  destruct (user_eqb t u); [reflexivity|].
  destruct (objects_exists _ _); [reflexivity|].
  destruct (objects_exists _ _); reflexivity.
Qed.

(** X7: the rate limit is kept per sender: whatever a call of [create] by
    one user does, the number of requests counted against any other user
    is the same after it as before, so no user is ever rate-limited by
    someone else's requests. *)
Theorem rate_limit_is_per_sender (db : DB) (now now' : Z) (u v : CustomUser)
  (data data' : RequestData) :
  user_eqb v u = false ->
  recent_requests_count (fst (create serializer db now' v data')) now u
  = recent_requests_count db now u
  /\ (status (snd (create serializer db now u data)) <> 429 ->
      status (snd (create serializer
                     (fst (create serializer db now' v data')) now u data))
      <> 429).
Proof.
  intros Hvu.
  assert (Hcount : recent_requests_count
                     (fst (create serializer db now' v data')) now u
                   = recent_requests_count db now u).
  { destruct (create_unchanged_or_created serializer db now' v data')
      as [[_ ->] | (e & t & _ & _ & _ & _ & _ & _ & ->)]; [reflexivity|].
    unfold recent_requests_count. simpl. rewrite objects_count_app.
    unfold objects_count at 2. simpl. rewrite Hvu. simpl. lia. }
  split; [exact Hcount|].
  intros Hfree Hlimited. apply Hfree.
  assert (Hlim : forall d, status (snd (create serializer d now u data)) = 429 ->
                           3 <= recent_requests_count d now u).
  { intros d H. create_paths serializer d now u data;
      match goal with E : _ = create _ _ _ _ _ |- _ =>
        rewrite <- E in H; simpl in H; discriminate end. }
  apply Hlim in Hlimited. rewrite Hcount in Hlimited.
  now rewrite create_rate_limited.
Qed.

(** X8: on a given store the window only slides forward: the number of
    requests counted against a sender never grows as time passes, a sender
    who is admitted at one instant is admitted at every later one, and once
    every stored request of the sender is more than a minute old [create]
    never answers 429. *)
Theorem rate_limit_relaxes_with_time (db : DB) (now now' : Z) (u : CustomUser)
  (data : RequestData) :
  (now <= now')%Z ->
  recent_requests_count db now' u <= recent_requests_count db now u
  /\ (status (snd (create serializer db now u data)) <> 429 ->
      status (snd (create serializer db now' u data)) <> 429)
  /\ ((forall r, In r (FriendRequest_objects db) ->
                 user_eqb (from_user r) u = true ->
                 (created_at r + timedelta_minutes 1 < now)%Z) ->
      status (snd (create serializer db now' u data)) <> 429).
Proof.
  intros Hle.
  assert (Hmono : recent_requests_count db now' u
                  <= recent_requests_count db now u).
  { unfold recent_requests_count. apply objects_count_le_mono.
    intros r _ H. apply andb_true_iff in H. destruct H as [Hu Ht].
    rewrite Hu. simpl. apply Z.leb_le in Ht. apply Z.leb_le. lia. }
  assert (Hlim : forall t, status (snd (create serializer db t u data)) = 429 ->
                           3 <= recent_requests_count db t u).
  { intros t H. create_paths serializer db t u data;
      match goal with E : _ = create _ _ _ _ _ |- _ =>
        rewrite <- E in H; simpl in H; discriminate end. }
  repeat apply conj.
  - exact Hmono.
  - intros Hfree Hlimited. apply Hfree. apply Hlim in Hlimited.
    rewrite create_rate_limited; [reflexivity | lia].
  - intros Hold Hlimited. apply Hlim in Hlimited.
    rewrite recent_requests_count_old in Hlimited; [lia|].
    intros r Hr Hu. specialize (Hold r Hr Hu). lia.
Qed.

(** With pairwise distinct emails, [create] on a parsed body does not reach
    its [except Exception] handler. *)
Lemma parsed_body_is_not_answered_500 (db : DB) (now : Z)
  (u : CustomUser) (data : RequestData) :
  unique_emails db ->
  In (status (snd (create serializer db now u data))) [201; 400; 404; 429].
Proof.
  intros Huniq.
  create_paths serializer db now u data; simpl; auto 10.
  exfalso. eapply objects_get_email_unique; eauto.
Qed.

(** X9: when no two users share an email, [create] answers 500 for one
    kind of request only: a body that the parser refuses, from a sender
    within the rate limit (a sender over the limit is answered 429 before
    the body is read).  Every parsed body is answered 201, 400, 404 or 429,
    and a refused body writes nothing. *)
Theorem create_fails_only_on_malformed_body (db : DB) (now : Z)
  (u : CustomUser) (request_body : RequestBody) :
  unique_emails db ->
  (status (snd (create_from_body serializer db now u request_body)) = 500
   <-> request_body = MalformedBody /\ recent_requests_count db now u < 3)
  /\ In (status (snd (create_from_body serializer db now u request_body)))
        [201; 400; 404; 429; 500]
  /\ (request_body = MalformedBody ->
      fst (create_from_body serializer db now u request_body) = db
      /\ (3 <= recent_requests_count db now u ->
          create_from_body serializer db now u request_body
          = (db, RateLimited))).
Proof.
  intros Huniq. destruct request_body as [data|].
  - cbn [create_from_body].
    pose proof (parsed_body_is_not_answered_500 db now u data Huniq) as Hin.
    split; [|split].
    + split; [|intros [H _]; discriminate].
      intros H500. rewrite H500 in Hin. simpl in Hin.
      repeat (destruct Hin as [Hin | Hin]; [discriminate|]). contradiction.
    + simpl in Hin. simpl. tauto.
    + discriminate.
  - unfold create_from_body.
    destruct (Nat.leb 3 (recent_requests_count db now u)) eqn:Hcount;
      cbn [fst snd status];
      cbv [HTTP_429_TOO_MANY_REQUESTS HTTP_500_INTERNAL_SERVER_ERROR].
    + apply Nat.leb_le in Hcount. split; [|split].
      * split; [discriminate | intros [_ H]; lia].
      * simpl. tauto.
      * intros _. split; [reflexivity|]. intros _. reflexivity.
    + apply Nat.leb_gt in Hcount. split; [|split].
      * split; [intros _; split; [reflexivity | exact Hcount] | reflexivity].
      * simpl. tauto.
      * intros _. split; [reflexivity|]. lia.
Qed.

End CreateScope.

Lemma rate_limit_is_per_sender_witness :
  user_eqb carol bob = false
  /\ recent_requests_count
       (fst (create sample_serializer limited_db (seconds 35) carol
               (payload_to dave))) (seconds 36) bob
     = recent_requests_count limited_db (seconds 36) bob
  /\ status (snd (create sample_serializer
                    (fst (create sample_serializer limited_db (seconds 35) carol
                            (payload_to dave)))
                    (seconds 36) bob (payload_to erin))) <> 429.
Proof.
  destruct (rate_limit_is_per_sender sample_serializer limited_db (seconds 36)
              (seconds 35) bob carol (payload_to erin) (payload_to dave)
              eq_refl) as [Hcount Hfree].
  split; [reflexivity|]. split; [exact Hcount|].
  apply Hfree. vm_compute. discriminate.
Defined.

Lemma rate_limit_relaxes_with_time_witness :
  (seconds 91 <= seconds 100)%Z
  /\ status (snd (create sample_serializer limited_db (seconds 40) alice
                    (payload_to erin))) = 429
  /\ recent_requests_count limited_db (seconds 100) alice
     <= recent_requests_count limited_db (seconds 91) alice
  /\ status (snd (create sample_serializer limited_db (seconds 100) alice
                    (payload_to erin))) <> 429.
Proof.
  destruct (rate_limit_relaxes_with_time sample_serializer limited_db
              (seconds 91) (seconds 100) alice (payload_to erin))
    as (Hmono & _ & Hold).
  { vm_compute. discriminate. }
  split; [vm_compute; discriminate|]. split; [reflexivity|].
  split; [exact Hmono|].
  apply Hold. intros r Hr _. simpl in Hr.
  destruct Hr as [<- | [<- | [<- | []]]]; vm_compute; reflexivity.
Defined.

Lemma unique_emails_empty_db : unique_emails empty_db.
Proof.
  unfold unique_emails. simpl.
  repeat constructor; simpl; intuition discriminate.
Qed.

Lemma unique_emails_limited_db : unique_emails limited_db.
Proof. exact unique_emails_empty_db. Qed.

Lemma create_fails_only_on_malformed_body_witness :
  unique_emails empty_db
  /\ status (snd (create_from_body sample_serializer empty_db 0 alice
                    MalformedBody)) = 500
  /\ In (status (snd (create_from_body sample_serializer empty_db 0 alice
                        (ParsedBody (payload_to bob)))))
        [201; 400; 404; 429; 500]
  /\ create_from_body sample_serializer limited_db (seconds 40) alice
       MalformedBody = (limited_db, RateLimited)
  /\ status (snd (create sample_serializer shared_email_db 0 alice
                    (payload_to bob))) = 500.
Proof.
  destruct (create_fails_only_on_malformed_body sample_serializer empty_db 0
              alice MalformedBody unique_emails_empty_db) as (H500 & _ & _).
  destruct (create_fails_only_on_malformed_body sample_serializer empty_db 0
              alice (ParsedBody (payload_to bob)) unique_emails_empty_db)
    as (_ & Hin & _).
  destruct (create_fails_only_on_malformed_body sample_serializer limited_db
              (seconds 40) alice MalformedBody unique_emails_limited_db)
    as (_ & _ & Hmal).
  destruct (Hmal eq_refl) as [_ Hlimited].
  split; [exact unique_emails_empty_db|].
  split; [apply H500; split; [reflexivity | vm_compute; lia]|].
  split; [exact Hin|].
  split; [apply Hlimited; vm_compute; lia | reflexivity].
Defined.

(** ** The pending list after a call of [create] *)

Section PendingAfterCreate.

Variable serializer : RequestData -> Validation.

(** X10: a call of [create] changes one pending list at most: when it is
    answered 201 the list of the user it targets gains one entry at its
    end, the caller's email; every other list, and every list after any
    other answer, is as it was. *)
Theorem pending_list_after_create (db : DB) (now : Z) (s : CustomUser)
  (data : RequestData) (u : CustomUser) :
  pending_entries
    (list_pending_requests (fst (create serializer db now s data)) u)
  = pending_entries (list_pending_requests db u)
    ++ (if targets serializer db u (mkCreateCall now s data)
           && Nat.eqb (status (snd (create serializer db now s data))) 201
        then [ {| from_user_email := email s |} ]
        else []).
Proof.
  rewrite !list_pending_requests_entries.
  destruct (create_unchanged_or_created serializer db now s data)
    as [[Hne ->] | (e & t & Hs & Hg & _ & _ & _ & _ & ->)].
  - apply Nat.eqb_neq in Hne. rewrite Hne, andb_false_r.
    now rewrite app_nil_r.
  - simpl. rewrite filter_app, map_app. f_equal.
    unfold targets. simpl. rewrite Hs, Hg, andb_true_r.
    unfold is_pending_for. simpl. rewrite andb_true_r.
    now destruct (user_eqb t u).
Qed.

End PendingAfterCreate.

(** ** Settled requests and the rate limit *)

Lemma objects_count_delete (p : FriendRequest -> bool)
  (rows : list FriendRequest) (r : FriendRequest) :
  NoDup (map pk rows) -> In r rows ->
  objects_count p (filter (fun x => negb (Nat.eqb (pk x) (pk r))) rows)
  + (if p r then 1 else 0)
  = objects_count p rows.
Proof.
  unfold objects_count.
  induction rows as [|x rows IH]; intros Hnd Hin; [contradiction|].
  simpl in Hnd. inversion Hnd as [|? ? Hnotin Hnd']; subst.
  simpl. destruct Hin as [-> | Hin].
  - rewrite Nat.eqb_refl. simpl.
    assert (E : filter (fun x => negb (Nat.eqb (pk x) (pk r))) rows = rows).
    { clear IH Hnd Hnd'. induction rows as [|y l IHl]; simpl; [reflexivity|].
      destruct (pk y =? pk r)%nat eqn:Ey.
      - apply Nat.eqb_eq in Ey. exfalso. apply Hnotin. simpl. now left.
      - simpl. f_equal. apply IHl. intros H. apply Hnotin. simpl. now right. }
    rewrite E. destruct (p r); simpl; lia.
  - destruct (pk x =? pk r)%nat eqn:E.
    + apply Nat.eqb_eq in E. exfalso. apply Hnotin. rewrite E.
      now apply in_map.
    + simpl. specialize (IH Hnd' Hin).
      destruct (p x); simpl; lia.
Qed.

(** X11: the rate limit counts stored requests, and a settled request is
    no longer stored: once its recipient accepts or rejects a request, the
    number counted against its sender is lower by one if the request was in
    the window, and unchanged otherwise.  ([FriendRequest.accept] and
    [FriendRequest.reject] are the methods modelled from the
    specification.) *)
Theorem settled_request_leaves_the_window (db : DB) (requester : CustomUser)
  (pk' : nat) (r : FriendRequest) (now : Z) (s : CustomUser) :
  NoDup (map pk (FriendRequest_objects db)) ->
  get_friend_request db pk' = inr (Some r) ->
  user_eqb (to_user r) requester = true ->
  accepted r = false ->
  recent_requests_count (fst (accept_response db requester pk')) now s
  + (if counted now s r then 1 else 0)
  = recent_requests_count db now s
  /\ recent_requests_count (fst (reject_response db requester pk')) now s
     + (if counted now s r then 1 else 0)
     = recent_requests_count db now s.
Proof.
  intros Hnd Hget Hto Hacc.
  destruct (get_friend_request_found db pk' r Hget) as [Hin Hpk].
  unfold accept_response, reject_response, accept, reject.
  rewrite Hget, Hto, Hacc. simpl fst.
  unfold recent_requests_count. rewrite delete_after_accept_rows.
  unfold FriendRequest_reject. simpl FriendRequest_objects.
  split; apply (objects_count_delete (counted now s) _ r Hnd Hin).
Qed.

(** On the sample data: Alice is at the limit at second 40; Bob accepts
    her request, and her next request at second 40 is answered 201. *)
Lemma settled_request_leaves_the_window_witness :
  NoDup (map pk (FriendRequest_objects limited_db))
  /\ status (snd (create sample_serializer limited_db (seconds 40) alice
                    (payload_to erin))) = 429
  /\ recent_requests_count (fst (accept_response limited_db bob 3))
       (seconds 40) alice + 1
     = recent_requests_count limited_db (seconds 40) alice
  /\ status (snd (create sample_serializer
                    (fst (accept_response limited_db bob 3))
                    (seconds 40) alice (payload_to erin))) = 201.
Proof.
  assert (Hnd : NoDup (map pk (FriendRequest_objects limited_db))).
  { simpl. repeat constructor; simpl; intuition discriminate. }
  destruct (settled_request_leaves_the_window limited_db bob 3
              {| pk := 3; from_user := alice; to_user := bob;
                 accepted := false; created_at := seconds 30 |}
              (seconds 40) alice Hnd eq_refl eq_refl eq_refl) as [Ha _].
  split; [exact Hnd|]. split; [reflexivity|]. split; [exact Ha|].
  reflexivity.
Defined.

(** * User search and pagination *)

(** ** The pages of a paginator *)

Lemma firstn_plus {A : Type} (a b : nat) (l : list A) :
  firstn (a + b) l = firstn a l ++ firstn b (skipn a l).
Proof.
  revert l. induction a as [|a IH]; intros l; simpl; [reflexivity|].
  destruct l as [|x l]; simpl.
  - now rewrite firstn_nil.
  - now rewrite IH.
Qed.

Lemma page_slice_firstn {A : Type} (l : list A) (per_page n : nat) :
  page_slice l per_page n = firstn per_page (skipn ((n - 1) * per_page) l).
Proof.
  unfold page_slice.
  destruct (Nat.leb_spec (List.length l) ((n - 1) * per_page + per_page))
    as [Hle | Hlt].
  - rewrite !firstn_all2; [reflexivity | |]; rewrite length_skipn; lia.
  - f_equal. lia.
Qed.

Lemma concat_page_slices {A : Type} (l : list A) (per_page k : nat) :
  List.concat (map (page_slice l per_page) (seq 1 k)) = firstn (k * per_page) l.
Proof.
  induction k as [|k IH]; [reflexivity|].
  rewrite seq_S, map_app, List.concat_app, IH. simpl.
  rewrite app_nil_r, page_slice_firstn.
  replace (S k - 1) with k by lia.
  replace (per_page + k * per_page) with (k * per_page + per_page) by lia.
  now rewrite firstn_plus.
Qed.

(** The pages cover the list, and all but the last are within it. *)
Lemma num_pages_bounds (count per_page : nat) :
  0 < per_page ->
  1 <= num_pages count per_page
  /\ count <= num_pages count per_page * per_page
  /\ (num_pages count per_page - 1) * per_page < Nat.max 1 count.
Proof.
  intros Hper. unfold num_pages.
  set (hits := Nat.max 1 count).
  assert (Hhits : 1 <= hits /\ count <= hits) by (unfold hits; lia).
  pose proof (Nat.div_mod_eq hits per_page) as Hdiv.
  pose proof (Nat.mod_upper_bound hits per_page) as Hmod.
  destruct (Nat.eqb_spec (hits mod per_page) 0) as [E | E].
  - rewrite E in Hdiv.
    assert (1 <= hits / per_page) by nia.
    repeat split; nia.
  - repeat split; nia.
Qed.

(** X12: the pages of a paginator partition the list it holds: taken in
    order from 1 to the last they give the list back, each page but the
    last holds exactly [per_page] items, no page holds more, and no page
    of a list that is not empty is empty. *)
Theorem pages_partition_the_list {A : Type} (l : list A) (per_page : nat) :
  0 < per_page ->
  List.concat (map (page_slice l per_page)
              (seq 1 (num_pages (List.length l) per_page))) = l
  /\ (forall n, List.length (page_slice l per_page n) <= per_page)
  /\ (forall n, 1 <= n < num_pages (List.length l) per_page ->
                List.length (page_slice l per_page n) = per_page)
  /\ (l <> [] ->
      forall n, 1 <= n <= num_pages (List.length l) per_page ->
                page_slice l per_page n <> []).
Proof.
  intros Hper.
  destruct (num_pages_bounds (List.length l) per_page Hper)
    as (Hone & Hcover & Hlast).
  repeat apply conj.
  - rewrite concat_page_slices. now apply firstn_all2.
  - intros n. rewrite page_slice_firstn, length_firstn. lia.
  - intros n Hn. rewrite page_slice_firstn, length_firstn, length_skipn.
    assert (n * per_page <= (num_pages (List.length l) per_page - 1) * per_page)
      by (apply Nat.mul_le_mono_r; lia).
    destruct l as [|x l']; simpl List.length in *; nia.
  - intros Hne n Hn Hempty.
    apply (f_equal (@List.length A)) in Hempty.
    rewrite page_slice_firstn, length_firstn, length_skipn in Hempty.
    simpl in Hempty.
    assert ((n - 1) * per_page
            <= (num_pages (List.length l) per_page - 1) * per_page)
      by (apply Nat.mul_le_mono_r; lia).
    destruct l as [|x l']; [contradiction|]. simpl List.length in *. nia.
Qed.

Lemma pages_partition_the_list_witness :
  0 < 2
  /\ num_pages 5 2 = 3
  /\ List.concat (map (page_slice [alice; bob; carol; dave; erin] 2) (seq 1 3))
     = [alice; bob; carol; dave; erin].
Proof.
  split; [lia|]. split; [reflexivity|].
  apply (pages_partition_the_list [alice; bob; carol; dave; erin] 2). lia.
Defined.

(** ** Ordering and matching *)

From Stdlib Require Import Sorted Permutation.

Lemma insert_by_id_perm (u : CustomUser) (l : list CustomUser) :
  Permutation (insert_by_id u l) (u :: l).
Proof.
  induction l as [|v l IH]; simpl; [reflexivity|].
  destruct (user_pk u <=? user_pk v)%nat; [reflexivity|].
  rewrite IH. apply perm_swap.
Qed.

Lemma order_by_id_perm (l : list CustomUser) : Permutation (order_by_id l) l.
Proof.
  induction l as [|u l IH]; simpl; [reflexivity|].
  rewrite insert_by_id_perm. now constructor.
Qed.

Lemma insert_by_id_sorted (u : CustomUser) (l : list CustomUser) :
  StronglySorted (fun a b => user_pk a <= user_pk b) l ->
  StronglySorted (fun a b => user_pk a <= user_pk b) (insert_by_id u l).
Proof.
  induction l as [|v l IH]; intros Hs; simpl.
  - repeat constructor.
  - inversion Hs as [|? ? Hs' Hall]; subst.
    destruct (Nat.leb_spec (user_pk u) (user_pk v)) as [Hle | Hlt].
    + constructor; [assumption|]. constructor; [assumption|].
      eapply Forall_impl; [|exact Hall]. simpl. intros x Hx. lia.
    + constructor; [now apply IH|].
      eapply Permutation_Forall; [symmetry; apply insert_by_id_perm|].
      constructor; [lia | assumption].
Qed.

Lemma order_by_id_sorted (l : list CustomUser) :
  StronglySorted (fun a b => user_pk a <= user_pk b) (order_by_id l).
Proof.
  induction l as [|u l IH]; simpl; [constructor|].
  now apply insert_by_id_sorted.
Qed.

Lemma filter_sorted {A : Type} (R : A -> A -> Prop) (p : A -> bool)
  (l : list A) :
  StronglySorted R l -> StronglySorted R (filter p l).
Proof.
  induction 1 as [|x l Hs IH Hall]; simpl; [constructor|].
  destruct (p x); [|assumption].
  constructor; [assumption|].
  apply Forall_forall. intros y Hy. apply filter_In in Hy.
  rewrite Forall_forall in Hall. apply Hall, Hy.
Qed.

Lemma filter_perm {A : Type} (p : A -> bool) (l l' : list A) :
  Permutation l l' -> Permutation (filter p l) (filter p l').
Proof.
  induction 1 as [|x l l' H IH|x y l|l l' l'' H1 IH1 H2 IH2]; simpl.
  - constructor.
  - destruct (p x); [now constructor | assumption].
  - destruct (p x), (p y); try reflexivity. apply perm_swap.
  - now transitivity (filter p l').
Qed.

Lemma prefix_spec (k s : string) :
  String.prefix k s = true <-> exists b, s = (k ++ b)%string.
Proof.
  revert s. induction k as [|c k IH]; intros s; simpl.
  - destruct s; split; eauto.
  - destruct s as [|d s].
    + split; [discriminate | intros (b & Hb); discriminate].
    + simpl. destruct (Ascii.ascii_dec c d) as [<- | Hne].
      * rewrite IH. split; intros (b & Hb); exists b; congruence.
      * split; [discriminate | intros (b & Hb); congruence].
Qed.

(** [contains] is the substring test. *)
Lemma contains_spec (k s : string) :
  contains k s = true <-> exists a b, s = (a ++ k ++ b)%string.
Proof.
  induction s as [|c s IH]; cbn [contains].
  - rewrite orb_false_r, prefix_spec. split.
    + intros (b & Hb). exists EmptyString, b. exact Hb.
    + intros ([|c a] & b & Hab); [exists b; exact Hab | discriminate].
  - rewrite orb_true_iff, prefix_spec, IH. split.
    + intros [(b & Hb) | (a & b & Hab)].
      * exists EmptyString, b. exact Hb.
      * exists (String c a), b. simpl. now rewrite Hab.
    + intros ([|d a] & b & Hab).
      * left. exists b. exact Hab.
      * right. simpl in Hab. injection Hab as _ Hab. eauto.
Qed.

(** ** [UserSearchViewSet.list] *)

Section SearchProperties.

Variable python_int : string -> option Z.
Variable UserFilter : QueryParams -> CustomUser -> bool.
Variable SerializedUser : Type.
Variable UserSignupSerializer : CustomUser -> SerializedUser.

Lemma get_page_size_bounds (params : QueryParams) :
  (1 <= get_page_size python_int params <= 1000)%Z.
Proof.
  unfold get_page_size, positive_int, page_size, max_page_size.
  destruct (query_get "page_size" params) as [s|]; [|lia].
  destruct (python_int s) as [n|]; [|lia].
  destruct (Z.ltb_spec n 0); simpl; [lia|].
  destruct (Z.eqb_spec n 0); simpl; lia.
Qed.

Lemma validate_number_range (x : string + Z) (pages n : nat) :
  validate_number python_int x pages = Some n -> 1 <= n <= pages.
Proof.
  unfold validate_number.
  destruct (match x with inl s => python_int s | inr z => Some z end)
    as [z|]; [|discriminate].
  destruct (Z.ltb_spec z 1) as [Hlow | Hlow]; [discriminate|].
  destruct (Z.ltb_spec (Z.of_nat pages) z) as [Hhigh | Hhigh]; [discriminate|].
  intros E. injection E as <-. lia.
Qed.

(** The view serves the validated page, or answers 500. *)
Lemma search_response_cases (db : DB) (params : QueryParams) :
  let l := filtered_queryset UserFilter db params in
  let per_page := Z.to_nat (get_page_size python_int params) in
  let pages := num_pages (List.length l) per_page in
  UserSearchViewSet_list python_int UserFilter SerializedUser
    UserSignupSerializer db params
  = match validate_number python_int (get_page_number params pages) pages with
    | Some n =>
        {| list_body :=
             PageBody
               {| next := if (n <? pages)%nat then Some (S n) else None;
                  previous := if (1 <? n)%nat then Some (n - 1) else None;
                  count := List.length l;
                  results := map UserSignupSerializer (page_slice l per_page n) |};
           list_status := 200 |}
    | None =>
        {| list_body := ListError "An unexpected error occurred.";
           list_status := 500 |}
    end.
Proof.
  intros l per_page pages.
  unfold UserSearchViewSet_list, paginate_queryset.
  pose proof (get_page_size_bounds params) as Hb.
  destruct (Z.eqb_spec (get_page_size python_int params) 0) as [E|_]; [lia|].
  fold l per_page pages.
  now destruct (validate_number _ _ _).
Qed.

(** Which [page] parameters are refused. *)
Lemma page_refused_iff (params : QueryParams) (pages : nat) :
  1 <= pages ->
  validate_number python_int (get_page_number params pages) pages = None
  <-> exists s,
        query_get "page" params = Some s
        /\ s <> "" /\ s <> "last"
        /\ match python_int s with
           | Some n => (n < 1 \/ Z.of_nat pages < n)%Z
           | None => True
           end.
Proof.
  intros Hpages. unfold validate_number, get_page_number.
  destruct (query_get "page" params) as [s|] eqn:Hpage.
  - destruct (String.eqb_spec s "") as [-> | Hne].
    + destruct (Z.ltb_spec 1 1) as [Hlow | Hlow]; [lia|].
      destruct (Z.ltb_spec (Z.of_nat pages) 1) as [Hhigh | Hhigh]; [lia|].
      split; [discriminate | intros (s & Hs & Hs1 & _); congruence].
    + destruct (String.eqb_spec s "last") as [-> | Hnl].
      * destruct (Z.ltb_spec (Z.of_nat pages) 1) as [Hlow | Hlow]; [lia|].
        rewrite Z.ltb_irrefl.
        split; [discriminate | intros (s & Hs & _ & Hs2 & _); congruence].
      * destruct (python_int s) as [z|] eqn:Hint.
        { destruct (Z.ltb_spec z 1) as [Hlow | Hlow].
          - split; [|reflexivity]. intros _. exists s. rewrite Hint. auto.
          - destruct (Z.ltb_spec (Z.of_nat pages) z) as [Hhigh | Hhigh].
            + split; [|reflexivity]. intros _. exists s. rewrite Hint. auto.
            + split; [discriminate|].
              intros (s' & Hs & _ & _ & Hs3).
              assert (s' = s) by congruence. subst s'.
              rewrite Hint in Hs3. lia. }
        split; [|reflexivity]. intros _. exists s. rewrite Hint. auto.
  - destruct (Z.ltb_spec 1 1) as [Hlow | Hlow]; [lia|].
    destruct (Z.ltb_spec (Z.of_nat pages) 1) as [Hhigh | Hhigh]; [lia|].
    split; [discriminate | intros (s & Hs & _); discriminate].
Qed.

(** X13: the page size of the search is always between 1 and 1000: it is
    10 unless the [page_size] parameter reads as an integer of at least 1,
    and then it is that integer cut off at 1000; so pagination is never
    switched off and no answer carries more than 1000 results. *)
Theorem page_size_is_between_1_and_1000 (db : DB) (params : QueryParams) :
  (1 <= get_page_size python_int params <= 1000)%Z
  /\ (query_get "page_size" params = None ->
      get_page_size python_int params = 10%Z)
  /\ (forall s, query_get "page_size" params = Some s ->
        match python_int s with
        | Some n =>
            get_page_size python_int params
            = if (1 <=? n)%Z then Z.min n 1000 else 10%Z
        | None => get_page_size python_int params = 10%Z
        end)
  /\ (forall b,
        list_body (UserSearchViewSet_list python_int UserFilter SerializedUser
                     UserSignupSerializer db params) = PageBody b ->
        (Z.of_nat (List.length (results b))
         <= get_page_size python_int params)%Z
        /\ List.length (results b) <= 1000).
Proof.
  pose proof (get_page_size_bounds params) as Hb.
  repeat apply conj; try lia.
  - unfold get_page_size. now intros ->.
  - intros s Hs. unfold get_page_size, positive_int, page_size, max_page_size.
    rewrite Hs. destruct (python_int s) as [n|]; [|reflexivity].
    destruct (Z.ltb_spec n 0), (Z.eqb_spec n 0), (Z.leb_spec 1 n);
      simpl; try reflexivity; lia.
  - intros b. unfold UserSearchViewSet_list, paginate_queryset.
    destruct (Z.eqb_spec (get_page_size python_int params) 0) as [E|_];
      [lia|].
    destruct (validate_number _ _ _) as [n|]; simpl; [|discriminate].
    intros H. injection H as <-. simpl.
    rewrite length_map, page_slice_firstn, length_firstn. lia.
Qed.

(** X14: an answer of the search is 200 with a page or 500 with the generic
    error, and it is 500 exactly when the [page] parameter is given, is
    neither empty nor ["last"], and does not read as an integer between 1
    and the number of pages: such a request is not answered 404. *)
Theorem search_answers_500_on_invalid_page (db : DB) (params : QueryParams) :
  let response := UserSearchViewSet_list python_int UserFilter SerializedUser
                    UserSignupSerializer db params in
  let pages := num_pages
                 (List.length (filtered_queryset UserFilter db params))
                 (Z.to_nat (get_page_size python_int params)) in
  ((exists b, response = {| list_body := PageBody b; list_status := 200 |})
   \/ response = {| list_body := ListError "An unexpected error occurred.";
                    list_status := 500 |})
  /\ (list_status response = 500
      <-> exists s,
            query_get "page" params = Some s
            /\ s <> "" /\ s <> "last"
            /\ match python_int s with
               | Some n => (n < 1 \/ Z.of_nat pages < n)%Z
               | None => True
               end)
  /\ list_status response <> 404.
Proof.
  intros response pages. unfold response.
  rewrite search_response_cases. fold pages.
  assert (Hpages : 1 <= pages).
  { apply num_pages_bounds.
    pose proof (get_page_size_bounds params). lia. }
  pose proof (page_refused_iff params pages Hpages) as Hiff.
  destruct (validate_number _ _ _) as [n|] eqn:V; simpl.
  - split; [left; eauto | split; [|discriminate]].
    split; [discriminate|]. intros H. apply Hiff in H. discriminate.
  - split; [right; reflexivity | split; [|discriminate]].
    split; [|reflexivity]. intros _. now apply Hiff.
Qed.

(** X15: a 200 answer of the search carries the page that was asked for:
    page 1 when the [page] parameter is missing or empty, the last page for
    ["last"], page [n] when it reads as [n]; its results are the serialized
    users of that slice of the matches, its count is the number of all
    matches, its [next] link addresses page [n + 1] and is absent exactly on
    the last page, and its [previous] link addresses page [n - 1] and is
    absent exactly on page 1. *)
Theorem search_serves_the_requested_page (db : DB) (params : QueryParams)
  (b : PaginatedBody SerializedUser) :
  let l := filtered_queryset UserFilter db params in
  let per_page := Z.to_nat (get_page_size python_int params) in
  let pages := num_pages (List.length l) per_page in
  list_body (UserSearchViewSet_list python_int UserFilter SerializedUser
               UserSignupSerializer db params) = PageBody b ->
  exists n,
    1 <= n <= pages
    /\ results b = map UserSignupSerializer (page_slice l per_page n)
    /\ count b = List.length l
    /\ (next b = None <-> n = pages)
    /\ (n < pages -> next b = Some (n + 1))
    /\ (previous b = None <-> n = 1)
    /\ (1 < n -> previous b = Some (n - 1))
    /\ (query_get "page" params = None -> n = 1)
    /\ (query_get "page" params = Some "" -> n = 1)
    /\ (query_get "page" params = Some "last" -> n = pages)
    /\ (forall s z, query_get "page" params = Some s ->
                    s <> "" -> s <> "last" ->
                    python_int s = Some z -> Z.of_nat n = z).
Proof.
  intros l per_page pages. rewrite search_response_cases.
  fold l per_page pages.
  destruct (validate_number python_int (get_page_number params pages) pages)
    as [n|] eqn:V; simpl; [|discriminate].
  intros E. injection E as <-. simpl.
  pose proof (validate_number_range _ _ _ V) as Hn.
  exists n. split; [exact Hn|]. split; [reflexivity|]. split; [reflexivity|].
  assert (Hnext : (n <? pages)%nat = true <-> n < pages) by apply Nat.ltb_lt.
  assert (Hprev : (1 <? n)%nat = true <-> 1 < n) by apply Nat.ltb_lt.
  unfold validate_number, get_page_number in V.
  repeat apply conj.
  - destruct (n <? pages)%nat; [discriminate|].
    intros _. destruct (Nat.eq_dec n pages); [assumption|].
    assert (n < pages) by lia. apply Hnext in H. discriminate.
  - intros ->. destruct (pages <? pages)%nat eqn:E; [|reflexivity].
    apply Nat.ltb_lt in E. lia.
  - intros H. apply Hnext in H. rewrite H. f_equal. lia.
  - destruct (1 <? n)%nat; [discriminate|].
    intros _. destruct (Nat.eq_dec n 1); [assumption|].
    assert (1 < n) by lia. apply Hprev in H. discriminate.
  - intros ->. reflexivity.
  - intros H. apply Hprev in H. now rewrite H.
  - intros Hp. rewrite Hp in V.
    destruct (Z.ltb_spec 1 1); [discriminate|].
    destruct (Z.ltb_spec (Z.of_nat pages) 1); [discriminate|].
    injection V as <-. reflexivity.
  - intros Hp. rewrite Hp in V. simpl in V.
    destruct (Z.ltb_spec 1 1); [discriminate|].
    destruct (Z.ltb_spec (Z.of_nat pages) 1); [discriminate|].
    injection V as <-. reflexivity.
  - intros Hp. rewrite Hp in V. simpl in V.
    destruct (Z.ltb_spec (Z.of_nat pages) 1); [discriminate|].
    rewrite Z.ltb_irrefl in V. injection V as <-. lia.
  - intros s z Hp Hne Hnl Hint. rewrite Hp in V.
    destruct (String.eqb_spec s ""); [contradiction|].
    destruct (String.eqb_spec s "last"); [contradiction|].
    rewrite Hint in V.
    destruct (Z.ltb_spec z 1); [discriminate|].
    destruct (Z.ltb_spec (Z.of_nat pages) z); [discriminate|].
    injection V as <-. lia.
Qed.

End SearchProperties.

(** Users picked from a table with distinct primary keys have distinct
    primary keys. *)
Lemma filter_keeps_distinct_pks (test : CustomUser -> bool)
  (users : list CustomUser) :
  NoDup (map user_pk users) -> NoDup (map user_pk (filter test users)).
Proof.
  induction users as [|u users IH]; simpl; intros Hnd; [constructor|].
  inversion Hnd as [|? ? Hfresh Hrest]; subst.
  destruct (test u); simpl; [|now apply IH].
  constructor; [|now apply IH].
  intros Hin. apply Hfresh. apply in_map_iff in Hin.
  destruct Hin as (v & Hv & Hin). apply filter_In in Hin.
  rewrite <- Hv. apply in_map, Hin.
Qed.

Section SearchMatches.

Variable UserFilter : QueryParams -> CustomUser -> bool.

Lemma filtered_queryset_perm (db : DB) (params : QueryParams) :
  exists keyword_test : CustomUser -> bool,
    Permutation (filtered_queryset UserFilter db params)
                (filter keyword_test
                   (filter (UserFilter params) (CustomUser_objects db)))
    /\ forall u,
         keyword_test u = true
         <-> match query_get "q" params with
             | Some k =>
                 k = ""
                 \/ icontains (username u) k = true
                 \/ icontains (email u) k = true
             | None => True
             end.
Proof.
  unfold filtered_queryset.
  pose proof (order_by_id_perm (CustomUser_objects db)) as Hperm.
  assert (Hall : forall l : list CustomUser, filter (fun _ => true) l = l).
  { intros l. induction l as [|x l IH]; simpl; congruence. }
  destruct (query_get "q" params) as [k|].
  - destruct (String.eqb_spec k "") as [-> | Hne].
    + exists (fun _ => true). rewrite Hall.
      split; [now apply filter_perm | intros u; tauto].
    + exists (fun u => icontains (username u) k || icontains (email u) k).
      split; [now do 2 apply filter_perm|].
      intros u. rewrite orb_true_iff. tauto.
  - exists (fun _ => true). rewrite Hall.
    split; [now apply filter_perm | intros u; tauto].
Qed.

(** X16: the matches of a search are the users of the table that pass the
    filter set and, when a keyword [q] is given and not empty, have it in
    their username or in their email, the case of ASCII letters ignored;
    they come in ascending order of primary key, and no user comes twice
    when primary keys are unique. *)
Theorem search_matches_sorted_by_id (db : DB) (params : QueryParams) :
  let l := filtered_queryset UserFilter db params in
  (forall u,
     In u l
     <-> In u (CustomUser_objects db)
         /\ UserFilter params u = true
         /\ match query_get "q" params with
            | Some k =>
                k = ""
                \/ (exists a c,
                      lower (username u) = (a ++ lower k ++ c)%string)
                \/ (exists a c, lower (email u) = (a ++ lower k ++ c)%string)
            | None => True
            end)
  /\ StronglySorted (fun a c => user_pk a <= user_pk c) l
  /\ (NoDup (map user_pk (CustomUser_objects db)) -> NoDup (map user_pk l)).
Proof.
  intros l.
  destruct (filtered_queryset_perm db params) as (p & Hperm & Hp).
  fold l in Hperm. repeat apply conj.
  - intros u. split.
    + intros Hin. apply (Permutation_in _ Hperm) in Hin.
      apply filter_In in Hin. destruct Hin as [Hin Hq].
      apply filter_In in Hin. destruct Hin as [Hin Hf].
      apply Hp in Hq.
      split; [assumption|]. split; [assumption|].
      destruct (query_get "q" params) as [k|]; [|exact I].
      unfold icontains in Hq. rewrite !contains_spec in Hq. exact Hq.
    + intros (Hin & Hf & Hq).
      apply (Permutation_in _ (Permutation_sym Hperm)).
      apply filter_In. split; [apply filter_In; now split|]. apply Hp.
      destruct (query_get "q" params) as [k|]; [|exact I].
      unfold icontains. rewrite !contains_spec. exact Hq.
  - unfold l, filtered_queryset.
    pose proof (order_by_id_sorted (CustomUser_objects db)) as Hs.
    destruct (query_get "q" params) as [k|];
      [destruct (String.eqb k "")|]; repeat apply filter_sorted; exact Hs.
  - intros Hnd.
    apply (Permutation_NoDup
             (Permutation_map user_pk (Permutation_sym Hperm))).
    now do 2 apply filter_keeps_distinct_pks.
Qed.

End SearchMatches.

(** ** The search on the sample data *)

Lemma accept_reject_succeed_iff_witness :
  status (snd (accept_response pending_db bob 7)) = 200
  /\ (exists r, get_friend_request pending_db 7 = inr (Some r)
                /\ user_eqb (to_user r) bob = true
                /\ accepted r = false)
  /\ status (snd (reject_response pending_db bob 7)) = 200.
Proof.
  destruct (accept_reject_succeed_iff pending_db bob 7) as (Ha & Hr & _).
  split; [reflexivity|]. split.
  - apply Ha. reflexivity.
  - apply Hr. reflexivity.
Defined.

Lemma page_size_is_between_1_and_1000_witness :
  query_get "page_size" [("page_size", "5000")] = Some "5000"
  /\ sample_int "5000" = Some 5000%Z
  /\ get_page_size sample_int [("page_size", "5000")] = 1000%Z
  /\ get_page_size sample_int [("page_size", "0")] = 10%Z.
Proof.
  destruct (page_size_is_between_1_and_1000 sample_int sample_user_filter
              string email search_db [("page_size", "5000")])
    as (_ & _ & Hbig & _).
  destruct (page_size_is_between_1_and_1000 sample_int sample_user_filter
              string email search_db [("page_size", "0")])
    as (_ & _ & Hzero & _).
  specialize (Hbig "5000" eq_refl). specialize (Hzero "0" eq_refl).
  split; [reflexivity|]. split; [reflexivity|].
  split; [exact Hbig | exact Hzero].
Defined.

Lemma search_answers_500_on_invalid_page_witness :
  list_status (UserSearchViewSet_list sample_int sample_user_filter string
                 email search_db [("page", "3")]) = 500
  /\ exists s, query_get "page" [("page", "3")] = Some s
               /\ s <> "" /\ s <> "last".
Proof.
  destruct (search_answers_500_on_invalid_page sample_int sample_user_filter
              string email search_db [("page", "3")]) as (_ & Hiff & _).
  split; [reflexivity|].
  destruct (proj1 Hiff eq_refl) as (s & Hs & Hne & Hnl & _).
  exists s. auto.
Defined.

Lemma search_serves_the_requested_page_witness :
  list_body (UserSearchViewSet_list sample_int sample_user_filter string email
               search_db
               [("q", "example.COM"); ("page_size", "2"); ("page", "last")])
  = PageBody {| next := None; previous := Some 2; count := 5;
                results := ["erin@example.com"] |}
  /\ num_pages
       (List.length
          (filtered_queryset sample_user_filter search_db
             [("q", "example.COM"); ("page_size", "2"); ("page", "last")]))
       (Z.to_nat
          (get_page_size sample_int
             [("q", "example.COM"); ("page_size", "2"); ("page", "last")]))
     = 3
  /\ exists n,
       n = 3
       /\ ["erin@example.com"]
          = map email
              (page_slice
                 (filtered_queryset sample_user_filter search_db
                    [("q", "example.COM"); ("page_size", "2"); ("page", "last")])
                 2 n).
Proof.
  destruct (search_serves_the_requested_page sample_int sample_user_filter
              string email search_db
              [("q", "example.COM"); ("page_size", "2"); ("page", "last")]
              {| next := None; previous := Some 2; count := 5;
                 results := ["erin@example.com"] |} eq_refl)
    as (n & _ & Hres & _ & _ & _ & _ & _ & _ & _ & Hlast & _).
  split; [reflexivity|]. split; [reflexivity|].
  exists n. split; [exact (Hlast eq_refl) | exact Hres].
Defined.

Lemma search_matches_sorted_by_id_witness :
  NoDup (map user_pk (CustomUser_objects empty_db))
  /\ In alice (filtered_queryset sample_user_filter empty_db [("q", "ALICE")])
  /\ NoDup (map user_pk
              (filtered_queryset sample_user_filter empty_db [("q", "ALICE")])).
Proof.
  assert (Hnd : NoDup (map user_pk (CustomUser_objects empty_db))).
  { simpl. repeat constructor; simpl; intuition discriminate. }
  destruct (search_matches_sorted_by_id sample_user_filter empty_db
              [("q", "ALICE")]) as (Hin & _ & Hnodup).
  split; [exact Hnd|]. split; [|exact (Hnodup Hnd)].
  apply Hin. split; [simpl; auto|]. split; [reflexivity|].
  right. left. exists "", "". reflexivity.
Defined.
